(** * HCP interaction logger: the conversational agent of backend/main.py

    A shallow embedding of the chat agent (tools, agent graph, chat endpoint)
    and of the chat-confirmation and listing paths, followed by the properties
    of the specification that were checked against it.

    Conventions.
    - A Python [str] is modelled as a [string] of characters with codes
      below 256 (the code points U+0000..U+00FF); [lower], [strip] and [in]
      act on them as Python's do.
    - A Python function that may raise returns an [outcome]; an endpoint
      returns an [http] result.
    - The language model and the text of a tool wrapper's
      argument-validation exception are parameters.  [run_graph] and
      [log_interaction_chat] take the number of node executions the graph
      run may make; [ainvoke] and [log_interaction_chat_default] are the
      run and the endpoint under the library's default recursion limit. *)

From Stdlib Require Import String Ascii List Bool Arith ZArith Lia.
Import ListNotations.
Open Scope string_scope.

(** ** Python string operations *)

Module PyStr.

(** The newline character of the f-strings. *)
Definition nl : string := String (ascii_of_nat 10) EmptyString.

(** [s] is truthy: a non-empty string. *)
Definition truthy (s : string) : bool :=
  match s with EmptyString => false | String _ _ => true end.

(** [sub in s]. *)
Fixpoint str_in (sub s : string) : bool :=
  prefix sub s ||
  match s with
  | EmptyString => false
  | String _ s' => str_in sub s'
  end.

(** [c.lower()] on the code points below 256: the letters A..Z and the
    capital letters U+00C0..U+00DE, the multiplication sign U+00D7 apart,
    move up by 32. *)
Definition lower_char (c : ascii) : ascii :=
  let n := nat_of_ascii c in
  if (((65 <=? n) && (n <=? 90))
      || ((192 <=? n) && (n <=? 222) && negb (n =? 215)))%nat
  then ascii_of_nat (n + 32) else c.

(** [s.lower()]. *)
Fixpoint lower (s : string) : string :=
  match s with
  | EmptyString => EmptyString
  | String c s' => String (lower_char c) (lower s')
  end.

(** [c.isspace()] on the code points below 256: tab, line feed, vertical
    tab, form feed, carriage return, the four separators 28..31, the space,
    next line (U+0085) and no-break space (U+00A0). *)
Definition is_space (c : ascii) : bool :=
  let n := nat_of_ascii c in
  (((9 <=? n) && (n <=? 13)) || ((28 <=? n) && (n <=? 32))
   || (n =? 133) || (n =? 160))%nat.

Fixpoint lstrip (s : string) : string :=
  match s with
  | EmptyString => EmptyString
  | String c s' => if is_space c then lstrip s' else s
  end.

Fixpoint rstrip (s : string) : string :=
  match s with
  | EmptyString => EmptyString
  | String c s' =>
      match rstrip s' with
      | EmptyString => if is_space c then EmptyString else String c EmptyString
      | r => String c r
      end
  end.

(** [s.strip()]. *)
Definition strip (s : string) : string := rstrip (lstrip s).

(** [sep.join(l)]. *)
Fixpoint join (sep : string) (l : list string) : string :=
  match l with
  | [] => EmptyString
  | [x] => x
  | x :: rest => x ++ sep ++ join sep rest
  end.

(** [s[:n]]. *)
Fixpoint take (n : nat) (s : string) : string :=
  match n, s with
  | S n', String c s' => String c (take n' s')
  | _, _ => EmptyString
  end.

(** Membership in a list of strings, [x in [...]]. *)
Definition mem (x : string) (l : list string) : bool :=
  existsb (String.eqb x) l.

End PyStr.
Import PyStr.

(** ** Results of code that may raise *)

Inductive outcome (A : Type) : Type :=
| Return (a : A)
| Raise (e : string).
Arguments Return {A} a.
Arguments Raise {A} e.

Definition bind {A B : Type} (m : outcome A) (k : A -> outcome B) : outcome B :=
  match m with
  | Return a => k a
  | Raise e => Raise e
  end.

Notation "'let*' x ':=' m 'in' k" := (bind m (fun x => k))
  (at level 10, x pattern, m at level 100, k at level 200).

(** ** Tool arguments

    A tool call carries a dict of JSON values.  The values the tools declare
    are strings, lists of strings and null. *)

Inductive value : Type :=
| VNone
| VStr (s : string)
| VList (l : list string).

Definition args : Type := list (string * value).

(** [d.get(key)] on a dict: [None] when the key is absent. *)
Fixpoint dict_get (key : string) (d : args) : option value :=
  match d with
  | [] => None
  | (k, v) :: rest => if String.eqb k key then Some v else dict_get key rest
  end.

(** ** The tools (LangChain [@tool] functions) *)

Module Tools.

(** Body of [log_interaction_tool], on its bound parameters. *)
Definition log_interaction_tool
    (hcpName interactionDate topicsDiscussed : string)
    (interactionTime : option string)
    (interactionType : string)
    (attendees materialsShared samplesDistributed : option (list string))
    (hcpSentiment outcomes followUpActions : option string) : string :=
  let sentiment_display :=
    match hcpSentiment with
    | Some s =>
        if truthy s && truthy (strip s) && negb (strip s =? "N/A")
        then strip s else "N/A"
    | None => "N/A"
    end in
  let attendees := match attendees with Some l => l | None => [] end in
  let materialsShared := match materialsShared with Some l => l | None => [] end in
  let samplesDistributed := match samplesDistributed with Some l => l | None => [] end in
  let str_or_na (s : string) := if truthy s then s else "N/A" in
  let opt_or_na (o : option string) :=
    match o with Some s => str_or_na s | None => "N/A" end in
  let list_or_na (l : list string) :=
    match l with [] => "N/A" | _ => join ", " l end in
  "**HCP:** " ++ str_or_na hcpName ++ nl ++
  "**Date:** " ++ str_or_na interactionDate ++ nl ++
  "**Time:** " ++ opt_or_na interactionTime ++ nl ++
  "**Type:** " ++ str_or_na interactionType ++ nl ++
  "**Attendees:** " ++ list_or_na attendees ++ nl ++
  "**Topics:** " ++ str_or_na topicsDiscussed ++ nl ++
  "**Materials Shared:** " ++ list_or_na materialsShared ++ nl ++
  "**Samples Distributed:** " ++ list_or_na samplesDistributed ++ nl ++
  "**Sentiment:** " ++ sentiment_display ++ nl ++
  "**Outcomes:** " ++ opt_or_na outcomes ++ nl ++
  "**Follow-up:** " ++ opt_or_na followUpActions.

Definition ask_clarifying_question_tool (question : string) : string :=
  question.

Definition summarize_interaction_tool (text : string) : string :=
  "Summary of provided text: '" ++ take 100 text ++ "...' (mock summary)".

Definition edit_interaction_tool
    (interaction_id field_to_edit new_value : string) : string :=
  "Mock: Interaction " ++ interaction_id ++ " field '" ++ field_to_edit ++
  "' updated to '" ++ new_value ++ "'.".

Definition retrieve_hcp_info_tool (hcp_name : string) : string :=
  "Mock: Retrieved info for " ++ hcp_name ++
  ": Speciality: Cardiology, Location: City Hospital.".

(** *** Invocation on a dict of arguments ([tool.ainvoke(tool_args)])

    The tool wrapper binds the dict to the declared parameters and raises
    when a required key is absent or a value has the wrong type.  The text
    of that exception is the wrapper's own; it is the parameter
    [validation_error]. *)

Section Invoke.
Variable validation_error : string -> args -> string.

(** A parameter declared [p: str]. *)
Definition required_str (tool p : string) (a : args) : outcome string :=
  match dict_get p a with
  | Some (VStr s) => Return s
  | _ => Raise (validation_error tool a)
  end.

(** A parameter declared [p: str = default]. *)
Definition defaulted_str (tool p default : string) (a : args) : outcome string :=
  match dict_get p a with
  | None => Return default
  | Some (VStr s) => Return s
  | Some _ => Raise (validation_error tool a)
  end.

(** A parameter declared [p: Optional[str] = None]. *)
Definition optional_str (tool p : string) (a : args) : outcome (option string) :=
  match dict_get p a with
  | None | Some VNone => Return None
  | Some (VStr s) => Return (Some s)
  | Some (VList _) => Raise (validation_error tool a)
  end.

(** A parameter declared [p: Optional[List[str]] = None]. *)
Definition optional_list (tool p : string) (a : args)
  : outcome (option (list string)) :=
  match dict_get p a with
  | None | Some VNone => Return None
  | Some (VList l) => Return (Some l)
  | Some (VStr _) => Raise (validation_error tool a)
  end.

Definition invoke_log_interaction_tool (a : args) : outcome string :=
  let t := "log_interaction_tool" in
  let* hcpName := required_str t "hcpName" a in
  let* interactionDate := required_str t "interactionDate" a in
  let* topicsDiscussed := required_str t "topicsDiscussed" a in
  let* interactionTime := optional_str t "interactionTime" a in
  let* interactionType := defaulted_str t "interactionType" "Meeting" a in
  let* attendees := optional_list t "attendees" a in
  let* materialsShared := optional_list t "materialsShared" a in
  let* samplesDistributed := optional_list t "samplesDistributed" a in
  let* hcpSentiment := optional_str t "hcpSentiment" a in
  let* outcomes := optional_str t "outcomes" a in
  let* followUpActions := optional_str t "followUpActions" a in
  Return (log_interaction_tool hcpName interactionDate topicsDiscussed
            interactionTime interactionType attendees materialsShared
            samplesDistributed hcpSentiment outcomes followUpActions).

Definition invoke_ask_clarifying_question_tool (a : args) : outcome string :=
  let* question := required_str "ask_clarifying_question_tool" "question" a in
  Return (ask_clarifying_question_tool question).

Definition invoke_summarize_interaction_tool (a : args) : outcome string :=
  let* text := required_str "summarize_interaction_tool" "text" a in
  Return (summarize_interaction_tool text).

Definition invoke_edit_interaction_tool (a : args) : outcome string :=
  let t := "edit_interaction_tool" in
  let* interaction_id := required_str t "interaction_id" a in
  let* field_to_edit := required_str t "field_to_edit" a in
  let* new_value := required_str t "new_value" a in
  Return (edit_interaction_tool interaction_id field_to_edit new_value).

Definition invoke_retrieve_hcp_info_tool (a : args) : outcome string :=
  let* hcp_name := required_str "retrieve_hcp_info_tool" "hcp_name" a in
  Return (retrieve_hcp_info_tool hcp_name).

End Invoke.


End Tools.
Import Tools.

(** ** Rendering of a dict in an f-string ([repr]) *)

Module PyRepr.

Definition dquote : ascii := ascii_of_nat 34.
Definition squote : ascii := ascii_of_nat 39.
Definition backslash : ascii := ascii_of_nat 92.

Definition hex_digit (n : nat) : ascii :=
  match String.get n "0123456789abcdef" with
  | Some c => c
  | None => "0"%char
  end.

(** One character of a string literal delimited by [quote]: the characters
    that are not printable (the controls, U+007F..U+00A0 and the soft hyphen
    U+00AD) are escaped. *)
Definition repr_char (quote c : ascii) : string :=
  let n := nat_of_ascii c in
  if Ascii.eqb c quote || Ascii.eqb c backslash
  then String backslash (String c EmptyString)
  else if (n =? 9)%nat then String backslash "t"
  else if (n =? 10)%nat then String backslash "n"
  else if (n =? 13)%nat then String backslash "r"
  else if ((n <? 32) || ((127 <=? n) && (n <=? 160)) || (n =? 173))%nat
  then String backslash
         (String "x" (String (hex_digit (n / 16)) (String (hex_digit (n mod 16)) EmptyString)))
  else String c EmptyString.

Fixpoint repr_chars (quote : ascii) (s : string) : string :=
  match s with
  | EmptyString => EmptyString
  | String c s' => repr_char quote c ++ repr_chars quote s'
  end.

(** [repr(s)]: single quotes, unless the text holds a single quote and no
    double quote. *)
Definition repr_str (s : string) : string :=
  let quote :=
    if str_in (String squote EmptyString) s
       && negb (str_in (String dquote EmptyString) s)
    then dquote else squote in
  String quote (repr_chars quote s ++ String quote EmptyString).

Definition repr_value (v : value) : string :=
  match v with
  | VNone => "None"
  | VStr s => repr_str s
  | VList l => "[" ++ join ", " (map repr_str l) ++ "]"
  end.

(** [repr(d)] of a dict, as [f"{tool_args}"] renders it. *)
Definition repr_args (d : args) : string :=
  "{" ++ join ", " (map (fun kv => repr_str (fst kv) ++ ": " ++ repr_value (snd kv)) d)
      ++ "}".

End PyRepr.
Import PyRepr.

(** ** Messages and agent state *)

Record ToolCall : Type := mkToolCall {
  tool_name : string;
  tool_args : args;
  tool_call_id : string
}.

Inductive BaseMessage : Type :=
| SystemMessage (content : string)
| HumanMessage (content : string)
| AIMessage (content : string) (tool_calls : list ToolCall)
| ToolMessage (content : string) (tool_call_id : string).

Record AgentState : Type := mkAgentState {
  messages : list BaseMessage
}.

(** [l[-1]]: raises on an empty list. *)
Definition last_item {A : Type} (l : list A) : outcome A :=
  match rev l with
  | x :: _ => Return x
  | [] => Raise "list index out of range"
  end.

(** The two markers of the loop-back rule, on a tool message's content. *)
Definition question_marker (content : string) : bool :=
  str_in "question" (lower content) || str_in "clarify" (lower content).

(** The three markers of a structured draft. *)
Definition draft_marker (content : string) : bool :=
  str_in "**HCP:**" content && str_in "**Date:**" content
  && str_in "**Topics:**" content.

(** ** The agent graph (LangGraph [StateGraph(AgentState)]) *)

Inductive node : Type := Node_llm | Node_tools | Node_END.

(** What a finished request reports: its result and the message lists the
    language model was invoked on, in order. *)
Definition llm_trace : Type := list (list BaseMessage).

Module Agent.

Section Graph.
(** Text of the exception a tool wrapper raises on ill-typed arguments. *)
Variable validation_error : string -> args -> string.
(** [llm_with_tools.ainvoke]: the [n]-th invocation of a request, on the
    messages it is given, returns an assistant message (its content and
    tool calls) or raises. *)
Variable llm : nat -> list BaseMessage -> outcome (string * list ToolCall).

(** [call_llm_node]: the update [{"messages": [response]}]. *)
Definition call_llm_node (n : nat) (state : AgentState)
  : outcome (list BaseMessage) :=
  let* response := llm n (messages state) in
  Return [AIMessage (fst response) (snd response)].

(** The [try]/[except] of [call_tool_node], for one tool call. *)
Definition tool_output_content (tool_call : ToolCall) : string :=
  let tool_name := tool_name tool_call in
  let tool_args := tool_args tool_call in
  let invoked :=
    if tool_name =? "log_interaction_tool"
    then invoke_log_interaction_tool validation_error tool_args
    else if tool_name =? "ask_clarifying_question_tool"
    then invoke_ask_clarifying_question_tool validation_error tool_args
    else if tool_name =? "summarize_interaction_tool"
    then invoke_summarize_interaction_tool validation_error tool_args
    else if tool_name =? "edit_interaction_tool"
    then invoke_edit_interaction_tool validation_error tool_args
    else if tool_name =? "retrieve_hcp_info_tool"
    then invoke_retrieve_hcp_info_tool validation_error tool_args
    else Return ("Unknown tool: " ++ tool_name) in
  match invoked with
  | Return text => text
  | Raise e => "Error executing tool " ++ tool_name ++ ": " ++ e
  end.

Definition tool_output (tool_call : ToolCall) : BaseMessage :=
  ToolMessage (tool_output_content tool_call) (tool_call_id tool_call).

(** [call_tool_node]: extends [state.messages] with one tool message per
    tool call of the last message and returns the update
    [{"messages": state.messages}]. *)
Definition call_tool_node (state : AgentState) : outcome (list BaseMessage) :=
  let* last_message := last_item (messages state) in
  match last_message with
  | AIMessage _ ((_ :: _) as tool_calls) =>
      Return (messages state ++ map tool_output tool_calls)%list
  | _ => Return (messages state)
  end.

(** The graph writes a node's update to the state.  [AgentState] declares
    [messages] with no reducer, so the update replaces the field. *)
Definition write (state : AgentState) (update : list BaseMessage) : AgentState :=
  {| messages := update |}.

Definition should_continue (state : AgentState) : outcome string :=
  let* last_message := last_item (messages state) in
  match last_message with
  | AIMessage _ (_ :: _) => Return "continue"
  | _ => Return "end"
  end.

Definition should_continue_after_tool (state : AgentState) : outcome string :=
  let* last_tool_message := last_item (messages state) in
  match last_tool_message with
  | ToolMessage content _ =>
      if str_in "question" (lower content) || str_in "clarify" (lower content)
      then Return "loop_to_llm"
      else if str_in "**HCP:**" content && str_in "**Date:**" content
      then Return "end"
      else Return "end"
  | _ => Return "end"
  end.

(** The conditional edges out of the two nodes. *)
Definition llm_edges (route : string) : outcome node :=
  if route =? "continue" then Return Node_tools
  else if route =? "end" then Return Node_END
  else Raise "KeyError".

Definition tools_edges (route : string) : outcome node :=
  if route =? "loop_to_llm" then Return Node_llm
  else if route =? "end" then Return Node_END
  else Raise "KeyError".

(** One step of the compiled graph at node [at_node]: run the node, write
    its update, follow the conditional edge.  [trace] holds the inputs of
    the language-model invocations made so far. *)
Definition step (at_node : node) (state : AgentState) (trace : llm_trace)
  : outcome (node * AgentState) * llm_trace :=
  match at_node with
  | Node_llm =>
      let trace' := (trace ++ [messages state])%list in
      (let* update := call_llm_node (length trace) state in
       let state' := write state update in
       let* route := should_continue state' in
       let* next := llm_edges route in
       Return (next, state'), trace')
  | Node_tools =>
      (let* update := call_tool_node state in
       let state' := write state update in
       let* route := should_continue_after_tool state' in
       let* next := tools_edges route in
       Return (next, state'), trace)
  | Node_END => (Return (Node_END, state), trace)
  end.

(** A run of the graph from a node, with a budget of [limit] node
    executions: the run raises (the library's [GraphRecursionError], whose
    text is abridged here) when a node is still to be executed and the
    budget is spent. *)
Fixpoint run_graph (limit : nat) (at_node : node) (state : AgentState)
    (trace : llm_trace) : outcome AgentState * llm_trace :=
  match at_node with
  | Node_END => (Return state, trace)
  | _ =>
      match limit with
      | 0 => (Raise "Recursion limit reached without hitting a stop condition", trace)
      | S limit' =>
          match step at_node state trace with
          | (Return (next, state'), trace') => run_graph limit' next state' trace'
          | (Raise e, trace') => (Raise e, trace')
          end
      end
  end.

(** The run of the graph on [langchain_messages] with a budget of [limit]
    node executions: the entry point is the [llm] node. *)
Definition app_graph (limit : nat) (langchain_messages : list BaseMessage)
  : outcome AgentState * llm_trace :=
  run_graph limit Node_llm {| messages := langchain_messages |} [].

(** The run of the graph as the library makes it under a recursion limit.
    The limit counts the steps of the run: once [recursion_limit] nodes have
    been executed the run raises, whether or not the last of them leads to
    the end, so that a run reaches the end only within fewer node executions
    than the limit. *)
Fixpoint pregel_loop (recursion_limit : nat) (at_node : node) (state : AgentState)
    (trace : llm_trace) : outcome AgentState * llm_trace :=
  match recursion_limit with
  | 0 => (Raise "Recursion limit reached without hitting a stop condition", trace)
  | S limit' =>
      match at_node with
      | Node_END => (Return state, trace)
      | _ =>
          match step at_node state trace with
          | (Return (next, state'), trace') => pregel_loop limit' next state' trace'
          | (Raise e, trace') => (Raise e, trace')
          end
      end
  end.

(** The recursion limit of a run whose caller sets none: the library's
    default. *)
Definition default_recursion_limit : nat := 25.

(** [app_graph.ainvoke({"messages": langchain_messages})], without a
    configuration, as [log_interaction_chat] calls it. *)
Definition ainvoke (langchain_messages : list BaseMessage)
  : outcome AgentState * llm_trace :=
  pregel_loop default_recursion_limit Node_llm
    {| messages := langchain_messages |} [].

End Graph.

(** What a finished run leaves as its last message: a plain assistant
    message or a tool message. *)
Definition terminal (m : BaseMessage) : Prop :=
  (exists content, m = AIMessage content [])
  \/ (exists content tool_call_id, m = ToolMessage content tool_call_id).

End Agent.
Import Agent.

(** ** The chat endpoint *)

Inductive http (A : Type) : Type :=
| Response (a : A)
| HTTPException (status_code : nat) (detail : string).
Arguments Response {A} a.
Arguments HTTPException {A} status_code detail.

(** The request and response models; generated identifiers are left out. *)
Record ChatMessage : Type := mkChatMessage {
  text : string;
  sender : string
}.

Record ChatSession : Type := mkChatSession {
  message : string;
  history : list ChatMessage
}.

Record ChatResponse : Type := mkChatResponse {
  reply : string;
  type : string
}.

Module Chat.

Definition system_prompt : string :=
  "You are a helpful AI assistant for logging interactions with Healthcare Professionals (HCPs). " ++
  "Your primary goal is to extract key details from the user's conversation (HCP name, date, time, attendees, " ++
  "topics discussed, materials/samples, sentiment, outcomes, follow-up actions). " ++
  "Once you have sufficient information for a complete log, offer to draft a summary in a structured format by calling the `log_interaction_tool`. " ++
  "If you don't have enough information, ask clarifying questions using `ask_clarifying_question_tool`. " ++
  "When drafting a log, ensure all parameters for `log_interaction_tool` are provided. " ++
  "Always respond concisely and directly address the user's query. " ++
  "**IMPORTANT: When extracting dates for `log_interaction_tool`, always use the DD-MM-YYYY format.** " ++
  "**IMPORTANT: When extracting times for `log_interaction_tool`, always use the HH:MM format.**".

(** The loop over [chat_history_from_frontend]. *)
Fixpoint history_messages (h : list ChatMessage) : list BaseMessage :=
  match h with
  | [] => []
  | msg :: rest =>
      if sender msg =? "user" then HumanMessage (text msg) :: history_messages rest
      else if sender msg =? "ai" then AIMessage (text msg) [] :: history_messages rest
      else history_messages rest
  end.

Definition langchain_messages (session_data : ChatSession) : list BaseMessage :=
  ([SystemMessage system_prompt]
     ++ history_messages (history session_data)
     ++ [HumanMessage (message session_data)])%list.

Section Endpoint.
Variable validation_error : string -> args -> string.
Variable llm : nat -> list BaseMessage -> outcome (string * list ToolCall).

(** The reply text and type computed from the last message of the final
    state (the body of the [try] after the graph has returned). *)
Definition agent_response (agent_response_message : BaseMessage)
  : outcome (string * string) :=
  match agent_response_message with
  | AIMessage content [] =>
      Return (content, if draft_marker content then "draft" else "text")
  | AIMessage _ (tool_call :: _) =>
      if tool_name tool_call =? "log_interaction_tool"
      then
        let* reply_text :=
          invoke_log_interaction_tool validation_error (tool_args tool_call) in
        Return (reply_text, "draft")
      else
        Return ("AI decided to call tool: " ++ tool_name tool_call ++
                " with args: " ++ repr_args (tool_args tool_call) ++
                ". Awaiting tool execution output.", "text")
  | ToolMessage content _ =>
      Return (content,
              if draft_marker content then "draft"
              else if question_marker content then "text"
              else "text")
  | HumanMessage content => Return (content, "text")
  | SystemMessage _ => Return ("Sorry, I couldn't process that request.", "text")
  end.

(** [log_interaction_chat], with the graph's step budget [limit]. *)
Definition log_interaction_chat (limit : nat) (session_data : ChatSession)
  : http ChatResponse * llm_trace :=
  let user_message_text := message session_data in
  if negb (truthy (strip user_message_text))
  then (HTTPException 400 "Message cannot be empty.", [])
  else
    let (final_state, trace) :=
      app_graph validation_error llm limit (langchain_messages session_data) in
    let result :=
      let* final_state := final_state in
      let* agent_response_message := last_item (messages final_state) in
      agent_response agent_response_message in
    match result with
    | Return (reply_text, response_type) =>
        (Response {| reply := reply_text; type := response_type |}, trace)
    | Raise e => (HTTPException 500 ("Error processing chat: " ++ e), trace)
    end.

(** The response to the outcome of the graph run, with the invocations of
    the language model the run made. *)
Definition chat_response (run : outcome AgentState * llm_trace)
  : http ChatResponse * llm_trace :=
  let (final_state, trace) := run in
  let result :=
    let* final_state := final_state in
    let* agent_response_message := last_item (messages final_state) in
    agent_response agent_response_message in
  match result with
  | Return (reply_text, response_type) =>
      (Response {| reply := reply_text; type := response_type |}, trace)
  | Raise e => (HTTPException 500 ("Error processing chat: " ++ e), trace)
  end.

(** [log_interaction_chat] as it runs: [ainvoke] is given no configuration,
    so the graph runs under the default recursion limit. *)
Definition log_interaction_chat_default (session_data : ChatSession)
  : http ChatResponse * llm_trace :=
  let user_message_text := message session_data in
  if negb (truthy (strip user_message_text))
  then (HTTPException 400 "Message cannot be empty.", [])
  else chat_response
         (ainvoke validation_error llm (langchain_messages session_data)).

End Endpoint.

End Chat.
Import Chat.

(** ** Dates and times of day ([datetime.date], [datetime.time]) *)

Module Calendar.

Record date : Type := mkDate { year : Z; month : Z; day : Z }.

Record time : Type := mkTime {
  hour : Z; minute : Z; second : Z; microsecond : Z
}.

Definition is_leap (y : Z) : bool :=
  ((y mod 4 =? 0) && (negb (y mod 100 =? 0) || (y mod 400 =? 0)))%Z.

Definition days_in_month (y m : Z) : Z :=
  match m with
  | 1 | 3 | 5 | 7 | 8 | 10 | 12 => 31
  | 4 | 6 | 9 | 11 => 30
  | 2 => if is_leap y then 29 else 28
  | _ => 0
  end%Z.

(** The values [datetime.date(y, m, d)] accepts. *)
Definition valid_date (d : date) : bool :=
  ((1 <=? year d) && (year d <=? 9999) && (1 <=? month d) && (month d <=? 12)
   && (1 <=? day d) && (day d <=? days_in_month (year d) (month d)))%Z.

(** The values [datetime.time(h, m, s, us)] accepts. *)
Definition valid_time (t : time) : bool :=
  ((0 <=? hour t) && (hour t <? 24) && (0 <=? minute t) && (minute t <? 60)
   && (0 <=? second t) && (second t <? 60)
   && (0 <=? microsecond t) && (microsecond t <? 1000000))%Z.

(** *** [strftime] *)

Definition digit (n : Z) : ascii := ascii_of_nat (Z.to_nat (48 + n)).

(** A field rendered on two digits ([%d], [%m], [%H], [%M]). *)
Definition two_digits (n : Z) : string :=
  String (digit (n / 10)) (String (digit (n mod 10)) EmptyString).

(** A number below 1000 on three digits. *)
Definition three_digits (n : Z) : string :=
  String (digit (n / 100)) (two_digits (n mod 100)).

(** A number below 10000 on four digits. *)
Definition four_digits (n : Z) : string :=
  String (digit (n / 1000))
    (String (digit (n / 100 mod 10))
       (String (digit (n / 10 mod 10)) (String (digit (n mod 10)) EmptyString))).

(** The year as [%Y] renders it: in decimal without leading zeros (the C
    library's [strftime], which does not pad a year below 1000), so on four
    digits only from the year 1000 on. *)
Definition year_digits (y : Z) : string :=
  if (y <? 10)%Z then String (digit y) EmptyString
  else if (y <? 100)%Z then two_digits y
  else if (y <? 1000)%Z then three_digits y
  else four_digits y.

(** [d.strftime("%d-%m-%Y")]. *)
Definition strftime_date (d : date) : string :=
  two_digits (day d) ++ "-" ++ two_digits (month d) ++ "-" ++ year_digits (year d).

(** [t.strftime("%H:%M")]. *)
Definition strftime_time (t : time) : string :=
  two_digits (hour t) ++ ":" ++ two_digits (minute t).

(** *** [strptime]

    [strptime] turns the format into a regular expression, one named group
    per directive, matches it at the start of the text by backtracking, and
    refuses text left over after the match. *)

Inductive re : Type :=
| Chr (p : ascii -> bool)
| Seq (r1 r2 : re)
| Alt (r1 r2 : re).

(** The ways [r] matches a prefix of [s], in the order backtracking tries
    them: the matched text and the rest. *)
Fixpoint matches (r : re) (s : string) : list (string * string) :=
  match r with
  | Chr p =>
      match s with
      | String c s' => if p c then [(String c EmptyString, s')] else []
      | EmptyString => []
      end
  | Seq r1 r2 =>
      flat_map (fun m1 =>
                  map (fun m2 => (fst m1 ++ fst m2, snd m2)) (matches r2 (snd m1)))
               (matches r1 s)
  | Alt r1 r2 => (matches r1 s ++ matches r2 s)%list
  end.

(** The first candidate on which the rest of the match succeeds. *)
Fixpoint first_match {A B : Type} (candidates : list A) (k : A -> option B)
  : option B :=
  match candidates with
  | [] => None
  | c :: rest =>
      match k c with
      | Some b => Some b
      | None => first_match rest k
      end
  end.

Definition is_digit (c : ascii) : bool :=
  let n := nat_of_ascii c in ((48 <=? n) && (n <=? 57))%nat.

Definition between (lo hi : ascii) (c : ascii) : bool :=
  ((nat_of_ascii lo <=? nat_of_ascii c) && (nat_of_ascii c <=? nat_of_ascii hi))%nat.

Definition lit (a : ascii) : re := Chr (Ascii.eqb a).
Definition range (lo hi : ascii) : re := Chr (between lo hi).
Definition any_digit : re := Chr is_digit.

(** [%d]: [3[0-1]|[1-2]\d|0[1-9]|[1-9]| [1-9]]. *)
Definition re_d : re :=
  Alt (Seq (lit "3") (range "0" "1"))
    (Alt (Seq (range "1" "2") any_digit)
       (Alt (Seq (lit "0") (range "1" "9"))
          (Alt (range "1" "9") (Seq (lit " ") (range "1" "9"))))).

(** [%m]: [1[0-2]|0[1-9]|[1-9]]. *)
Definition re_m : re :=
  Alt (Seq (lit "1") (range "0" "2"))
    (Alt (Seq (lit "0") (range "1" "9")) (range "1" "9")).

(** [%Y]: [\d\d\d\d]. *)
Definition re_Y : re :=
  Seq any_digit (Seq any_digit (Seq any_digit any_digit)).

(** [%H]: [2[0-3]|[0-1]\d|\d]. *)
Definition re_H : re :=
  Alt (Seq (lit "2") (range "0" "3"))
    (Alt (Seq (range "0" "1") any_digit) any_digit).

(** [%M]: [[0-5]\d|\d]. *)
Definition re_M : re :=
  Alt (Seq (range "0" "5") any_digit) any_digit.

(** [int(group)]: the decimal value of the digits of a group (a [%d] group
    may start with a space). *)
Definition to_int (s : string) : Z :=
  fold_left (fun acc c =>
               if is_digit c then (10 * acc + (Z.of_nat (nat_of_ascii c) - 48))%Z else acc)
            (list_ascii_of_string s) 0%Z.

(** [datetime.strptime(s, "%d-%m-%Y").date()]; [None] is [ValueError]. *)
Definition strptime_date (s : string) : option date :=
  let found :=
    first_match (matches re_d s) (fun d =>
    first_match (matches (lit "-") (snd d)) (fun sep1 =>
    first_match (matches re_m (snd sep1)) (fun m =>
    first_match (matches (lit "-") (snd m)) (fun sep2 =>
    first_match (matches re_Y (snd sep2)) (fun y =>
    Some (fst d, fst m, fst y, snd y)))))) in
  match found with
  | Some (d, m, y, EmptyString) =>
      let parsed := {| year := to_int y; month := to_int m; day := to_int d |} in
      if valid_date parsed then Some parsed else None
  | _ => None
  end.

(** [datetime.strptime(s, "%H:%M").time()]; [None] is [ValueError]. *)
Definition strptime_time (s : string) : option time :=
  let found :=
    first_match (matches re_H s) (fun h =>
    first_match (matches (lit ":") (snd h)) (fun sep =>
    first_match (matches re_M (snd sep)) (fun m =>
    Some (fst h, fst m, snd m)))) in
  match found with
  | Some (h, m, EmptyString) =>
      Some {| hour := to_int h; minute := to_int m; second := 0; microsecond := 0 |}
  | _ => None
  end.

End Calendar.
Import Calendar.

(** ** Stored interactions, the confirmation endpoint and the listing *)

(** [HCPInteractionForm], after validation. *)
Module HCPInteractionForm.
Record t : Type := mk {
  hcpName : string;
  interactionDate : date;
  interactionTime : option time;
  interactionType : string;
  attendees : list string;
  topicsDiscussed : string;
  materialsShared : list string;
  samplesDistributed : list string;
  hcpSentiment : option string;
  outcomes : string;
  followUpActions : string
}.
End HCPInteractionForm.

(** A row of [interaction_logs].  The three JSON columns hold lists. *)
Module InteractionLogDB.
Record t : Type := mk {
  id : nat;
  hcpName : string;
  interactionDate : date;
  interactionTime : option time;
  interactionType : string;
  attendees : list string;
  topicsDiscussed : string;
  materialsShared : list string;
  samplesDistributed : list string;
  hcpSentiment : option string;
  outcomes : string;
  followUpActions : string
}.
End InteractionLogDB.

Module LogConfirmation.
Record t : Type := mk { message : string; log_id : nat }.
End LogConfirmation.

(** The date and time of an [HCPLogResponse], as the listing renders them. *)
Module HCPLogResponse.
Record t : Type := mk {
  id : nat;
  hcpName : string;
  interactionDate : string;
  interactionTime : option string;
  hcpSentiment : option string
}.
End HCPLogResponse.

Module Confirm.

Definition http_bind {A B : Type} (m : http A) (k : A -> http B) : http B :=
  match m with
  | Response a => k a
  | HTTPException c d => HTTPException c d
  end.

(** An exception no handler of the endpoint catches. *)
Definition internal_server_error {A : Type} : http A :=
  HTTPException 500 "Internal Server Error".

(** [draft_data.get('hcpSentiment', '').strip()]. *)
Definition stripped_sentiment (draft_data : args) : http string :=
  match dict_get "hcpSentiment" draft_data with
  | None => Response (strip EmptyString)
  | Some (VStr s) => Response (strip s)
  | Some _ => internal_server_error
  end.

(** ['N/A'] and the empty string become [None]. *)
Definition normalize_sentiment (hcp_sentiment : string) : option string :=
  if (hcp_sentiment =? "N/A") || (hcp_sentiment =? EmptyString) then None
  else Some hcp_sentiment.

(** [hcp_sentiment in ['Positive', 'Neutral', 'Negative', None]]. *)
Definition sentiment_allowed (hcp_sentiment : option string) : bool :=
  match hcp_sentiment with
  | None => true
  | Some s => mem s ["Positive"; "Neutral"; "Negative"]
  end.

Definition check_sentiment (hcp_sentiment : option string) : http (option string) :=
  if sentiment_allowed hcp_sentiment then Response hcp_sentiment
  else
    HTTPException 400
      ("Invalid HCP Sentiment: '" ++
       match hcp_sentiment with Some s => s | None => "None" end ++
       "'. Must be Positive, Neutral, Negative, or empty/N/A.").

(** Pre-parsing of [interactionDate] (DD-MM-YYYY). *)
Definition parse_interaction_date (date_str : option value) : http (option date) :=
  match date_str with
  | None | Some VNone | Some (VStr EmptyString) | Some (VList []) => Response None
  | Some (VStr s) =>
      match strptime_date (strip s) with
      | Some d => Response (Some d)
      | None =>
          HTTPException 400
            ("Invalid date format for 'interactionDate': '" ++ s ++
             "'. Expected DD-MM-YYYY.")
      end
  | Some (VList _) => internal_server_error
  end.

(** Pre-parsing of [interactionTime] (HH:MM). *)
Definition parse_interaction_time (time_str : option value) : http (option time) :=
  match time_str with
  | None | Some VNone | Some (VStr EmptyString) | Some (VList []) => Response None
  | Some (VStr s) =>
      match strptime_time (strip s) with
      | Some t => Response (Some t)
      | None =>
          HTTPException 400
            ("Invalid time format for 'interactionTime': '" ++ s ++
             "'. Expected HH:MM.")
      end
  | Some (VList _) => internal_server_error
  end.

(** [draft_data.get(key) or ''], validated as a [str]. *)
Definition str_or_empty (key : string) (draft_data : args) : option string :=
  match dict_get key draft_data with
  | None | Some VNone | Some (VList []) => Some EmptyString
  | Some (VStr s) => Some s
  | Some (VList _) => None
  end.

(** [draft_data.get(key, [])], validated as a [List[str]]. *)
Definition list_or_empty (key : string) (draft_data : args) : option (list string) :=
  match dict_get key draft_data with
  | None => Some []
  | Some (VList l) => Some l
  | Some _ => None
  end.

(** [draft_data.get("interactionType", "Meeting")], validated against the
    literals of the form. *)
Definition interaction_type (draft_data : args) : option string :=
  match dict_get "interactionType" draft_data with
  | None => Some "Meeting"
  | Some (VStr s) =>
      if mem s ["Meeting"; "Call"; "Email"; "Conference"; "Other"; EmptyString]
      then Some s else None
  | Some _ => None
  end.

Definition length_between (lo hi : nat) (s : string) : bool :=
  ((lo <=? String.length s) && (String.length s <=? hi))%nat.

(** Construction of the [HCPInteractionForm] from the parsed data; [None]
    is [ValidationError]. *)
Definition validate_form (draft_data : args) (interaction_date_obj : option date)
    (interaction_time_obj : option time) (hcp_sentiment : option string)
  : option HCPInteractionForm.t :=
  match str_or_empty "hcpName" draft_data, interaction_date_obj,
        interaction_type draft_data, list_or_empty "attendees" draft_data,
        str_or_empty "topicsDiscussed" draft_data,
        list_or_empty "materialsShared" draft_data,
        list_or_empty "samplesDistributed" draft_data,
        str_or_empty "outcomes" draft_data,
        str_or_empty "followUpActions" draft_data with
  | Some name, Some d, Some ty, Some att, Some topics, Some mat, Some sam,
    Some out, Some fol =>
      if length_between 1 100 name && (1 <=? String.length topics)%nat
         && (String.length out <=? 500)%nat && (String.length fol <=? 500)%nat
      then Some (HCPInteractionForm.mk name d interaction_time_obj ty att topics
                   mat sam hcp_sentiment out fol)
      else None
  | _, _, _, _, _, _, _, _, _ => None
  end.

(** [db.add(db_log); db.commit(); db.refresh(db_log)]: the row gets the next
    identifier of the table. *)
Definition db_add (db : list InteractionLogDB.t) (f : HCPInteractionForm.t)
  : list InteractionLogDB.t * nat :=
  let new_id := S (length db) in
  ((db ++ [InteractionLogDB.mk new_id
            (HCPInteractionForm.hcpName f) (HCPInteractionForm.interactionDate f)
            (HCPInteractionForm.interactionTime f)
            (HCPInteractionForm.interactionType f)
            (HCPInteractionForm.attendees f) (HCPInteractionForm.topicsDiscussed f)
            (HCPInteractionForm.materialsShared f)
            (HCPInteractionForm.samplesDistributed f)
            (HCPInteractionForm.hcpSentiment f) (HCPInteractionForm.outcomes f)
            (HCPInteractionForm.followUpActions f)])%list, new_id).

Section ConfirmEndpoint.
(** Text of [e.errors()] for a draft the form refuses. *)
Variable errors : args -> string.

(** [confirm_chat_interaction_log]: the response and the table after the
    request. *)
Definition confirm_chat_interaction_log (draft_data : args)
    (db : list InteractionLogDB.t)
  : http LogConfirmation.t * list InteractionLogDB.t :=
  let checked :=
    http_bind (stripped_sentiment draft_data) (fun hcp_sentiment =>
    http_bind (check_sentiment (normalize_sentiment hcp_sentiment)) (fun hcp_sentiment =>
    http_bind (parse_interaction_date (dict_get "interactionDate" draft_data))
      (fun interaction_date_obj =>
    http_bind (parse_interaction_time (dict_get "interactionTime" draft_data))
      (fun interaction_time_obj =>
    match validate_form draft_data interaction_date_obj interaction_time_obj
            hcp_sentiment with
    | Some parsed_data => Response parsed_data
    | None =>
        HTTPException 400
          ("Invalid data for chat confirmation: " ++ errors draft_data)
    end)))) in
  match checked with
  | Response parsed_data =>
      let (db', new_id) := db_add db parsed_data in
      (Response (LogConfirmation.mk "Log confirmed and saved successfully!" new_id),
       db')
  | HTTPException c d => (HTTPException c d, db)
  end.

End ConfirmEndpoint.

(** [get_all_logs]: the date as DD-MM-YYYY and the time as HH:MM. *)
Definition get_all_logs (db : list InteractionLogDB.t) : list HCPLogResponse.t :=
  map (fun log =>
         HCPLogResponse.mk (InteractionLogDB.id log) (InteractionLogDB.hcpName log)
           (strftime_date (InteractionLogDB.interactionDate log))
           (option_map strftime_time (InteractionLogDB.interactionTime log))
           (InteractionLogDB.hcpSentiment log))
      db.

End Confirm.
Import Confirm.

(** ** The draft template of the specification *)

Module Template.

(** The eleven labels, in the order of the template. *)
Definition labels : list string :=
  [ "**HCP:**"; "**Date:**"; "**Time:**"; "**Type:**"; "**Attendees:**";
    "**Topics:**"; "**Materials Shared:**"; "**Samples Distributed:**";
    "**Sentiment:**"; "**Outcomes:**"; "**Follow-up:**" ].

(** One line per label, [label value], the lines separated by newlines. *)
Definition render (values : list string) : string :=
  join nl (map (fun lv => fst lv ++ " " ++ snd lv) (combine labels values)).

(** A text field: N/A when it is missing or empty. *)
Definition text_value (field : option string) : string :=
  match field with
  | Some (String c s) => String c s
  | _ => "N/A"
  end.

(** A list field: comma-joined, N/A when it is missing or empty. *)
Definition list_value (field : option (list string)) : string :=
  match field with
  | Some (x :: l) => join ", " (x :: l)
  | _ => "N/A"
  end.

(** The sentiment: trimmed, N/A when it is missing, blank or already N/A. *)
Definition sentiment_value (field : option string) : string :=
  match field with
  | Some s =>
      if (strip s =? EmptyString) || (strip s =? "N/A") then "N/A" else strip s
  | None => "N/A"
  end.

(** The fields of a dict of tool arguments. *)
Definition text_arg (p : string) (a : args) : option string :=
  match dict_get p a with Some (VStr s) => Some s | _ => None end.

Definition list_arg (p : string) (a : args) : option (list string) :=
  match dict_get p a with Some (VList l) => Some l | _ => None end.

(** A required text argument, once the dict is known to hold it. *)
Definition bound_str (p : string) (a : args) : string :=
  match text_arg p a with Some s => s | None => EmptyString end.

(** The interaction type with the default of the tool's signature. *)
Definition type_arg (a : args) : option string :=
  match dict_get "interactionType" a with
  | None => Some "Meeting"
  | _ => text_arg "interactionType" a
  end.

(** The template filled from the arguments, given the value of the type
    line. *)
Definition filled (type_line : string) (a : args) : string :=
  render
    [ text_value (text_arg "hcpName" a);
      text_value (text_arg "interactionDate" a);
      text_value (text_arg "interactionTime" a);
      type_line;
      list_value (list_arg "attendees" a);
      text_value (text_arg "topicsDiscussed" a);
      list_value (list_arg "materialsShared" a);
      list_value (list_arg "samplesDistributed" a);
      sentiment_value (text_arg "hcpSentiment" a);
      text_value (text_arg "outcomes" a);
      text_value (text_arg "followUpActions" a) ].

(** The draft with N/A for every empty or missing field. *)
Definition stated_draft (a : args) : string :=
  filled (text_value (text_arg "interactionType" a)) a.

(** The draft with N/A for every empty or missing field, except that a
    missing interaction type reads Meeting. *)
Definition expected_draft (a : args) : string :=
  filled (text_value (type_arg a)) a.

Definition is_str (v : option value) : bool :=
  match v with Some (VStr _) => true | _ => false end.

Definition is_optional_str (v : option value) : bool :=
  match v with Some (VList _) => false | _ => true end.

Definition is_optional_list (v : option value) : bool :=
  match v with Some (VStr _) => false | _ => true end.

Definition is_defaulted_str (v : option value) : bool :=
  match v with None | Some (VStr _) => true | _ => false end.

(** The dicts the signature of [log_interaction_tool] accepts. *)
Definition well_typed (a : args) : bool :=
  is_str (dict_get "hcpName" a) && is_str (dict_get "interactionDate" a)
  && is_str (dict_get "topicsDiscussed" a)
  && is_optional_str (dict_get "interactionTime" a)
  && is_defaulted_str (dict_get "interactionType" a)
  && is_optional_list (dict_get "attendees" a)
  && is_optional_list (dict_get "materialsShared" a)
  && is_optional_list (dict_get "samplesDistributed" a)
  && is_optional_str (dict_get "hcpSentiment" a)
  && is_optional_str (dict_get "outcomes" a)
  && is_optional_str (dict_get "followUpActions" a).

End Template.
Import Template.

(** ** Concrete capabilities for running the model on examples *)

Module Examples.

(** The first line of the wrapper's message stands for its text. *)
Definition validation_error (tool : string) (a : args) : string :=
  "1 validation error for " ++ tool.

(** A language model that answers every request with a plain greeting. *)
Definition greeting_llm (n : nat) (msgs : list BaseMessage)
  : outcome (string * list ToolCall) :=
  Return ("Hello!", []).

(** A language model that first asks a clarifying question through the
    tool, then answers in plain text. *)
Definition clarifying_llm (n : nat) (msgs : list BaseMessage)
  : outcome (string * list ToolCall) :=
  match n with
  | 0 =>
      Return (EmptyString,
              [ mkToolCall "ask_clarifying_question_tool"
                  [("question", VStr "Could you clarify the meeting date?")]
                  "call_1" ])
  | _ => Return ("Which date was the meeting on?", [])
  end.

(** Scenario 3 of the specification: only the required arguments. *)
Definition dr_lee : args :=
  [ ("hcpName", VStr "Dr. Lee"); ("interactionDate", VStr "01-06-2024");
    ("topicsDiscussed", VStr "Drug X efficacy") ].

(** A language model that answers with a question in plain text. *)
Definition asking_llm (n : nat) (msgs : list BaseMessage)
  : outcome (string * list ToolCall) :=
  Return ("Could you clarify the meeting date?", []).


Definition clarify_call : ToolCall :=
  mkToolCall "ask_clarifying_question_tool"
    [("question", VStr "Could you clarify the meeting date?")] "call_1".

(** An empty list stands for the text of the form's errors. *)
Definition errors (draft_data : args) : string := "[]".

(** A draft whose sentiment carries surrounding blanks. *)
Definition padded_draft : args :=
  [ ("hcpName", VStr "Dr. Lee"); ("interactionDate", VStr "01-06-2024");
    ("interactionTime", VStr "10:30"); ("topicsDiscussed", VStr "Drug X efficacy");
    ("hcpSentiment", VStr " Positive ") ].

(** A draft with a sentiment outside the literals and a malformed date. *)
Definition happy_draft : args :=
  [ ("hcpName", VStr "Dr. Lee"); ("interactionDate", VStr "June 1st");
    ("topicsDiscussed", VStr "Drug X efficacy"); ("hcpSentiment", VStr "Happy") ].

Definition greeting_session : ChatSession :=
  {| message := "hi"; history := [] |}.

Definition blank_session : ChatSession :=
  {| message := "   "; history := [] |}.

End Examples.

(** ** The form endpoint *)

Module Form.

(** [d.strftime('%Y-%m-%d')]. *)
Definition strftime_iso (d : date) : string :=
  year_digits (year d) ++ "-" ++ two_digits (month d) ++ "-" ++ two_digits (day d).

(** [log_interaction_form], on the form the request body was validated
    into: the response and the table after the request. *)
Definition log_interaction_form (interaction_data : HCPInteractionForm.t)
    (db : list InteractionLogDB.t)
  : http LogConfirmation.t * list InteractionLogDB.t :=
  if negb (truthy (HCPInteractionForm.hcpName interaction_data))
     && negb (truthy (HCPInteractionForm.topicsDiscussed interaction_data))
  then (HTTPException 400 "Either HCP Name or Topics Discussed must be provided.", db)
  else
    let (db', new_id) := db_add db interaction_data in
    (Response
       (LogConfirmation.mk
          ("Interaction with " ++ HCPInteractionForm.hcpName interaction_data
           ++ " on " ++ strftime_iso (HCPInteractionForm.interactionDate interaction_data)
           ++ " logged successfully via form.")
          new_id),
     db').

End Form.
Import Form.

(** ** Vocabulary of the further properties *)

(** A history entry the chat endpoint keeps: its sender is the user or the
    assistant. *)
Definition kept_sender (msg : ChatMessage) : bool :=
  (sender msg =? "user") || (sender msg =? "ai").

(** A message without tool traffic: system, user, or an assistant message
    with no tool calls. *)
Definition plain (m : BaseMessage) : bool :=
  match m with
  | SystemMessage _ | HumanMessage _ | AIMessage _ [] => true
  | _ => false
  end.

(** The text of a message. *)
Definition content_of (m : BaseMessage) : string :=
  match m with
  | SystemMessage c | HumanMessage c | AIMessage c _ | ToolMessage c _ => c
  end.

(** The identifier a tool message answers. *)
Definition answered_id (m : BaseMessage) : option string :=
  match m with
  | ToolMessage _ i => Some i
  | _ => None
  end.

(** The tool calls the last message of a list is waiting on: those of a
    final assistant message, none otherwise. *)
Definition pending_calls (l : list BaseMessage) : list ToolCall :=
  match rev l with
  | AIMessage _ tool_calls :: _ => tool_calls
  | _ => []
  end.

(** The last message of a state is a plain assistant message or a tool
    message. *)
Definition ends_terminal (state : AgentState) : Prop :=
  exists front last_message,
    messages state = (front ++ [last_message])%list /\ terminal last_message.

(** A row under another identifier. *)
Definition with_id (n : nat) (row : InteractionLogDB.t) : InteractionLogDB.t :=
  InteractionLogDB.mk n
    (InteractionLogDB.hcpName row) (InteractionLogDB.interactionDate row)
    (InteractionLogDB.interactionTime row) (InteractionLogDB.interactionType row)
    (InteractionLogDB.attendees row) (InteractionLogDB.topicsDiscussed row)
    (InteractionLogDB.materialsShared row) (InteractionLogDB.samplesDistributed row)
    (InteractionLogDB.hcpSentiment row) (InteractionLogDB.outcomes row)
    (InteractionLogDB.followUpActions row).

(** The character [c] does not occur in [w]. *)
Definition absent (c : ascii) (w : string) : bool :=
  negb (existsb (Ascii.eqb c) (list_ascii_of_string w)).

(** The characters of [s] are all whitespace. *)
Definition blank (s : string) : bool :=
  forallb is_space (list_ascii_of_string s).

Module Scenarios.

(** A language model that asks for a draft of the interaction with Dr. Lee. *)
Definition drafting_llm (n : nat) (msgs : list BaseMessage)
  : outcome (string * list ToolCall) :=
  Return (EmptyString, [mkToolCall "log_interaction_tool" Examples.dr_lee "call_1"]).

(** A language model that asks, through the tool, a question that holds none
    of the loop-back words. *)
Definition dating_llm (n : nat) (msgs : list BaseMessage)
  : outcome (string * list ToolCall) :=
  Return (EmptyString,
          [mkToolCall "ask_clarifying_question_tool"
             [("question", VStr "What date did the meeting occur?")] "call_1"]).

(** A language model that is down. *)
Definition failing_llm (n : nat) (msgs : list BaseMessage)
  : outcome (string * list ToolCall) :=
  Raise "connection error".

(** A language model that asks the same clarifying question at every
    invocation. *)
Definition insisting_llm (n : nat) (msgs : list BaseMessage)
  : outcome (string * list ToolCall) :=
  Return (EmptyString, [Examples.clarify_call]).


(** A request for a draft whose topics mention a question. *)
Definition questioning_call : ToolCall :=
  mkToolCall "log_interaction_tool"
    [ ("hcpName", VStr "Dr. Lee"); ("interactionDate", VStr "01-06-2024");
      ("topicsDiscussed", VStr "Open question on dosing") ] "call_1".

(** A request for a draft without the required date. *)
Definition dateless_call : ToolCall :=
  mkToolCall "log_interaction_tool"
    [ ("hcpName", VStr "Dr. Lee"); ("topicsDiscussed", VStr "Drug X efficacy") ]
    "call_1".

(** A draft as the listing would show a stored interaction. *)
Definition listed_draft : args :=
  [ ("hcpName", VStr "Dr. Lee");
    ("interactionDate", VStr (strftime_date (mkDate 2024 6 1)));
    ("interactionTime", VStr (strftime_time (mkTime 10 30 0 0)));
    ("topicsDiscussed", VStr "Drug X efficacy") ].

(** A draft without a date. *)
Definition undated_draft : args :=
  [ ("hcpName", VStr "Dr. Lee"); ("topicsDiscussed", VStr "Drug X efficacy") ].

Definition dr_lee_form : HCPInteractionForm.t :=
  HCPInteractionForm.mk "Dr. Lee" (mkDate 2024 6 1) (Some (mkTime 10 30 0 0))
    "Meeting" [] "Drug X efficacy" [] [] (Some EmptyString) EmptyString EmptyString.

(** The no-break space, U+00A0. *)
Definition no_break_space : string := String (ascii_of_nat 160) EmptyString.

(** A message of a no-break space and a next-line character (U+0085). *)
Definition spaced_session : ChatSession :=
  {| message := no_break_space ++ String (ascii_of_nat 133) EmptyString;
     history := [] |}.

(** A draft whose sentiment is followed by a no-break space. *)
Definition spaced_draft : args :=
  [ ("hcpName", VStr "Dr. Lee"); ("interactionDate", VStr "01-06-2024");
    ("topicsDiscussed", VStr "Drug X efficacy");
    ("hcpSentiment", VStr ("Positive" ++ no_break_space)) ].

(** A form dated before the year 1000. *)
Definition early_form : HCPInteractionForm.t :=
  HCPInteractionForm.mk "Dr. Lee" (mkDate 999 12 3) None
    "Meeting" [] "Drug X efficacy" [] [] None EmptyString EmptyString.

Definition two_turn_session : ChatSession :=
  {| message := "and the date?";
     history := [ mkChatMessage "Met Dr. Lee" "user";
                  mkChatMessage "internal note" "system";
                  mkChatMessage "Which date?" "ai" ] |}.

End Scenarios.

(** * Properties *)

Local Open Scope list_scope.

(** ** Lists and strings *)

Lemma last_item_app {A : Type} (l : list A) (x : A) :
  last_item (l ++ [x]) = Return x.
Proof.
  unfold last_item. rewrite rev_unit. reflexivity.
Qed.

Lemma last_item_app_nonempty {A : Type} (l l' : list A) (x : A) :
  last_item (l ++ l' ++ [x]) = Return x.
Proof.
  rewrite app_assoc. apply last_item_app.
Qed.

(** A list split at its last element. *)
Lemma nonempty_snoc {A : Type} (x : A) (l : list A) :
  exists front back, x :: l = front ++ [back].
Proof.
  destruct (@exists_last A (x :: l)) as (front & back & E); [discriminate|].
  exists front, back. exact E.
Qed.



(** ** The nodes of the graph *)

Section NodeFacts.
Variable validation_error : string -> args -> string.
Variable llm : nat -> list BaseMessage -> outcome (string * list ToolCall).

(** The tool node keeps every message it was given and appends one tool
    message per tool call of the last message. *)
Lemma call_tool_node_appends (front : list BaseMessage) (content : string)
    (tool_call : ToolCall) (tool_calls : list ToolCall) :
  call_tool_node validation_error
    {| messages := front ++ [AIMessage content (tool_call :: tool_calls)] |}
  = Return ((front ++ [AIMessage content (tool_call :: tool_calls)])
            ++ map (tool_output validation_error) (tool_call :: tool_calls)).
Proof.
  unfold call_tool_node. cbn [messages]. rewrite last_item_app. reflexivity.
Qed.

(** The route out of the tool node depends on the last message alone. *)
Lemma should_continue_after_tool_last (front : list BaseMessage)
    (content tool_call_id : string) :
  should_continue_after_tool
    {| messages := front ++ [ToolMessage content tool_call_id] |}
  = Return (if question_marker content then "loop_to_llm" else "end").
Proof.
  unfold should_continue_after_tool, question_marker. cbn [messages].
  rewrite last_item_app. cbn [bind].
  destruct (str_in "question" (lower content) || str_in "clarify" (lower content));
    [reflexivity|].
  destruct (str_in "**HCP:**" content && str_in "**Date:**" content); reflexivity.
Qed.

Lemma step_llm_node (state : AgentState) (trace : llm_trace)
    (content : string) (tool_calls : list ToolCall) :
  llm (length trace) (messages state) = Return (content, tool_calls) ->
  step validation_error llm Node_llm state trace
  = (Return (match tool_calls with [] => Node_END | _ :: _ => Node_tools end,
             {| messages := [AIMessage content tool_calls] |}),
     (trace ++ [messages state])%list).
Proof.
  intros H. unfold step, call_llm_node. rewrite H. cbn.
  destruct tool_calls; reflexivity.
Qed.

Lemma step_tools_node (front : list BaseMessage) (content : string)
    (tool_calls : list ToolCall) (tool_call : ToolCall) (trace : llm_trace) :
  let state :=
    {| messages := front ++ [AIMessage content (tool_calls ++ [tool_call])] |} in
  step validation_error llm Node_tools state trace
  = (Return (if question_marker (tool_output_content validation_error tool_call)
             then Node_llm else Node_END,
             {| messages :=
                  messages state
                  ++ map (tool_output validation_error) (tool_calls ++ [tool_call]) |}),
     trace).
Proof.
  intros state. unfold step.
  assert (E : call_tool_node validation_error state
              = Return (messages state
                        ++ map (tool_output validation_error) (tool_calls ++ [tool_call]))).
  { unfold call_tool_node, state. cbn [messages]. rewrite last_item_app.
    destruct tool_calls; reflexivity. }
  rewrite E. cbn [bind]. unfold write. rewrite map_app. cbn [map].
  rewrite app_assoc. unfold tool_output at 2 4.
  rewrite should_continue_after_tool_last. cbn [bind].
  destruct (question_marker (tool_output_content validation_error tool_call));
    reflexivity.
Qed.

Lemma run_graph_END (limit : nat) (state : AgentState) (trace : llm_trace) :
  run_graph validation_error llm limit Node_END state trace = (Return state, trace).
Proof.
  destruct limit; reflexivity.
Qed.

Lemma step_trace (at_node : node) (state : AgentState) (trace : llm_trace) :
  snd (step validation_error llm at_node state trace)
  = trace ++ match at_node with Node_llm => [messages state] | _ => [] end.
Proof.
  destruct at_node; cbn [step snd]; rewrite ?app_nil_r; reflexivity.
Qed.

(** A run only adds to the record of language-model invocations. *)
Lemma run_graph_trace_extends (limit : nat) :
  forall at_node state trace,
    exists more,
      snd (run_graph validation_error llm limit at_node state trace) = trace ++ more.
Proof.
  induction limit as [|limit IH]; intros at_node state trace.
  - exists []. rewrite app_nil_r. destruct at_node; reflexivity.
  - destruct at_node; cbn [run_graph].
    + pose proof (step_trace Node_llm state trace) as Hs.
      destruct (step validation_error llm Node_llm state trace) as [[[next state']|e] trace'];
        cbn [snd] in Hs; subst trace'.
      * destruct (IH next state' (trace ++ [messages state])) as [more Hm].
        exists ([messages state] ++ more). rewrite Hm, app_assoc. reflexivity.
      * exists [messages state]. reflexivity.
    + pose proof (step_trace Node_tools state trace) as Hs.
      destruct (step validation_error llm Node_tools state trace) as [[[next state']|e] trace'];
        cbn [snd] in Hs; rewrite app_nil_r in Hs; subst trace'.
      * apply IH.
      * exists []. rewrite app_nil_r. reflexivity.
    + exists []. rewrite app_nil_r. reflexivity.
Qed.

(** A run with a positive budget starts by invoking the language model on
    the messages it is given. *)
Lemma app_graph_invokes_llm (limit : nat) (msgs : list BaseMessage) :
  hd_error (snd (app_graph validation_error llm (S limit) msgs)) = Some msgs.
Proof.
  unfold app_graph. cbn [run_graph].
  pose proof (step_trace Node_llm {| messages := msgs |} []) as Hs.
  destruct (step validation_error llm Node_llm {| messages := msgs |} [])
    as [[[next state']|e] trace']; cbn [snd app messages] in Hs; subst trace'.
  - destruct (run_graph_trace_extends limit next state' [msgs]) as [more Hm].
    rewrite Hm. reflexivity.
  - reflexivity.
Qed.



End NodeFacts.

(** ** The message list across the nodes *)

(** C1.  The message list is not append-only at the language-model node.  On
    the turn of the message "hi" with an empty history, the state holds the
    system and the user message before the node runs; the node's update
    replaces the list, so afterwards it holds the assistant's message alone:
    the count drops from two to one and the earlier list is not a prefix of
    the later one.  (The tool node does append, see [call_tool_node_appends].) *)
Theorem llm_node_replaces_messages :
  forall validation_error : string -> args -> string,
    step validation_error Examples.greeting_llm Node_llm
      {| messages := langchain_messages Examples.greeting_session |} []
    = (Return (Node_END, {| messages := [AIMessage "Hello!" []] |}),
       [langchain_messages Examples.greeting_session])
    /\ length (langchain_messages Examples.greeting_session) = 2
    /\ length [AIMessage "Hello!" []] = 1
    /\ firstn 2 [AIMessage "Hello!" []] <> langchain_messages Examples.greeting_session.
Proof.
  intros validation_error. repeat split. discriminate.
Qed.

(** The same at any state: whatever the node was given, the state after it is
    the one new message. *)
Lemma llm_node_keeps_only_response (validation_error : string -> args -> string)
    (llm : nat -> list BaseMessage -> outcome (string * list ToolCall))
    (state : AgentState) (trace : llm_trace) (next : node) (state' : AgentState)
    (trace' : llm_trace) :
  step validation_error llm Node_llm state trace = (Return (next, state'), trace') ->
  length (messages state') = 1.
Proof.
  unfold step, call_llm_node.
  destruct (llm (length trace) (messages state)) as [[content tool_calls]|e];
    cbn; [|discriminate].
  destruct tool_calls; cbn; intros H; inversion H; reflexivity.
Qed.

(** ** The loop-back rule *)

(** C2.  After the tool calls of the last assistant message have been
    executed, the route out of the tool node is decided by the content of the
    last appended tool message alone: the graph goes back to the
    language-model node when that content, lower-cased, contains "question" or
    "clarify", and ends the turn for every other content. *)
Theorem loop_back_inspects_last_tool_message :
  forall (validation_error : string -> args -> string)
         (llm : nat -> list BaseMessage -> outcome (string * list ToolCall))
         (front : list BaseMessage) (content : string)
         (tool_calls : list ToolCall) (tool_call : ToolCall)
         (trace : llm_trace) (limit : nat),
    let state :=
      {| messages := front ++ [AIMessage content (tool_calls ++ [tool_call])] |} in
    let last_content := tool_output_content validation_error tool_call in
    let asks :=
      str_in "question" (lower last_content) || str_in "clarify" (lower last_content) in
    exists state',
      call_tool_node validation_error state = Return (messages state')
      /\ last_item (messages state')
         = Return (ToolMessage last_content (tool_call_id tool_call))
      /\ should_continue_after_tool state'
         = Return (if asks then "loop_to_llm" else "end")
      /\ step validation_error llm Node_tools state trace
         = (Return (if asks then Node_llm else Node_END, state'), trace)
      /\ run_graph validation_error llm (S limit) Node_tools state trace
         = if asks then run_graph validation_error llm limit Node_llm state' trace
           else (Return state', trace).
Proof.
  intros validation_error llm front content tool_calls tool_call trace limit
         state last_content asks.
  pose proof (step_tools_node validation_error llm front content tool_calls
                tool_call trace) as Hstep.
  cbv zeta in Hstep. fold state in Hstep.
  change (question_marker (tool_output_content validation_error tool_call))
    with asks in Hstep.
  exists {| messages :=
              messages state
              ++ map (tool_output validation_error) (tool_calls ++ [tool_call]) |}.
  split; [|split; [|split; [|split]]].
  - unfold call_tool_node, state. cbn [messages]. rewrite last_item_app.
    cbn [bind]. destruct tool_calls; reflexivity.
  - cbn [messages]. rewrite map_app. cbn [map]. rewrite app_assoc.
    apply last_item_app.
  - cbn [messages]. rewrite map_app. cbn [map]. rewrite app_assoc.
    apply should_continue_after_tool_last.
  - exact Hstep.
  - cbn [run_graph]. rewrite Hstep. destruct asks.
    + reflexivity.
    + apply run_graph_END.
Qed.

(** ** The reply of the chat endpoint *)

(** The endpoint reports two kinds of reply and no other. *)
Lemma agent_response_kinds (validation_error : string -> args -> string)
    (m : BaseMessage) (reply_text response_type : string) :
  agent_response validation_error m = Return (reply_text, response_type) ->
  response_type = "text" \/ response_type = "draft".
Proof.
  destruct m as [c|c|c [|tool_call rest]|c i]; cbn.
  - intros H; inversion H; auto.
  - intros H; inversion H; auto.
  - destruct (draft_marker c); intros H; inversion H; auto.
  - destruct (tool_name tool_call =? "log_interaction_tool").
    + destruct (invoke_log_interaction_tool validation_error (tool_args tool_call));
        cbn; intros H; inversion H; auto.
    + intros H; inversion H; auto.
  - destruct (draft_marker c); [|destruct (question_marker c)];
      intros H; inversion H; auto.
Qed.

(** C3, as stated, fails: a tool message asking to clarify the meeting date
    lacks the draft markers and contains "clarify", and its reply is reported
    with the kind text; so is the same sentence when the language model
    answers it directly. *)
Lemma clarifying_reply_is_text :
  draft_marker "Could you clarify the meeting date?" = false
  /\ question_marker "Could you clarify the meeting date?" = true
  /\ agent_response Examples.validation_error
       (ToolMessage "Could you clarify the meeting date?" "call_1")
     = Return ("Could you clarify the meeting date?", "text")
  /\ log_interaction_chat Examples.validation_error Examples.asking_llm 25
       Examples.greeting_session
     = (Response {| reply := "Could you clarify the meeting date?"; type := "text" |},
        [langchain_messages Examples.greeting_session])
  /\ "text" <> "question".
Proof.
  repeat split. discriminate.
Qed.

(** C3, amended.  For every terminal message, tool message or plain assistant
    message, whose content does not contain all three draft markers, the
    reported reply is the content with the kind text, whether or not the
    content contains "question" or "clarify". *)
Theorem reply_without_draft_markers_is_text :
  forall (validation_error : string -> args -> string)
         (content tool_call_id : string),
    draft_marker content = false ->
    agent_response validation_error (ToolMessage content tool_call_id)
    = Return (content, "text")
    /\ agent_response validation_error (AIMessage content [])
       = Return (content, "text").
Proof.
  intros validation_error content tool_call_id H. cbn. rewrite H.
  destruct (question_marker content); split; reflexivity.
Qed.

Lemma reply_without_draft_markers_is_text_witness :
  draft_marker "Could you clarify the meeting date?" = false
  /\ agent_response Examples.validation_error
       (ToolMessage "Could you clarify the meeting date?" "call_1")
     = Return ("Could you clarify the meeting date?", "text").
Proof.
  split; [reflexivity|].
  apply (reply_without_draft_markers_is_text Examples.validation_error
           "Could you clarify the meeting date?" "call_1").
  reflexivity.
Defined.

(** The defensive branch of the reply, for a last message that is an
    assistant message with tool calls.  No run of the graph ends on such a
    message (see [run_graph_ends_terminal] below), so the branch is described
    on the function alone.  On a call of the clarifying-question tool, the
    tool would return the question, and the branch returns a fixed sentence
    naming the tool and its arguments. *)
Lemma pending_question_call_is_not_invoked :
  invoke_ask_clarifying_question_tool Examples.validation_error
    (tool_args Examples.clarify_call)
  = Return "Could you clarify the meeting date?"
  /\ agent_response Examples.validation_error
       (AIMessage EmptyString [Examples.clarify_call])
     = Return ("AI decided to call tool: ask_clarifying_question_tool with args: {'question': 'Could you clarify the meeting date?'}. Awaiting tool execution output.",
               "text").
Proof.
  split; reflexivity.
Qed.

(** The defensive branch looks at the first call only: if it names
    [log_interaction_tool] the tool is invoked on the call's arguments and its
    result is the reply, of kind draft (an exception of the invocation
    propagates); if it names any other tool, no tool is invoked and the reply
    is the fixed sentence naming the tool and its arguments, of kind text. *)
Lemma fallback_on_pending_tool_call :
  forall (validation_error : string -> args -> string)
         (content : string) (tool_call : ToolCall) (rest : list ToolCall),
    (tool_name tool_call = "log_interaction_tool" ->
     agent_response validation_error (AIMessage content (tool_call :: rest))
     = match invoke_log_interaction_tool validation_error (tool_args tool_call) with
       | Return reply_text => Return (reply_text, "draft")
       | Raise e => Raise e
       end)
    /\ (tool_name tool_call <> "log_interaction_tool" ->
        agent_response validation_error (AIMessage content (tool_call :: rest))
        = Return (("AI decided to call tool: " ++ tool_name tool_call
                   ++ " with args: " ++ repr_args (tool_args tool_call)
                   ++ ". Awaiting tool execution output.")%string, "text")).
Proof.
  intros validation_error content tool_call rest. split; intros H; cbn.
  - rewrite H. cbn.
    destruct (invoke_log_interaction_tool validation_error (tool_args tool_call));
      reflexivity.
  - apply String.eqb_neq in H. rewrite H. reflexivity.
Qed.

Lemma fallback_on_pending_tool_call_witness :
  agent_response Examples.validation_error
    (AIMessage EmptyString [mkToolCall "log_interaction_tool" Examples.dr_lee "call_1"])
  = match invoke_log_interaction_tool Examples.validation_error Examples.dr_lee with
    | Return reply_text => Return (reply_text, "draft")
    | Raise e => Raise e
    end
  /\ agent_response Examples.validation_error
       (AIMessage EmptyString [Examples.clarify_call])
     = Return (("AI decided to call tool: " ++ tool_name Examples.clarify_call
                ++ " with args: " ++ repr_args (tool_args Examples.clarify_call)
                ++ ". Awaiting tool execution output.")%string, "text").
Proof.
  split.
  - apply (proj1 (fallback_on_pending_tool_call Examples.validation_error EmptyString
                    (mkToolCall "log_interaction_tool" Examples.dr_lee "call_1") [])).
    reflexivity.
  - apply (proj2 (fallback_on_pending_tool_call Examples.validation_error EmptyString
                    Examples.clarify_call [])).
    discriminate.
Defined.

(** ** Unknown tools *)




(** ** Blank messages *)

Lemma truthy_false (s : string) : truthy s = false <-> s = EmptyString.
Proof.
  destruct s; cbn; split; congruence.
Qed.

(** C8.  A turn whose message is empty or consists of whitespace only is
    answered with the validation failure 400 "Message cannot be empty." and
    the language model is never invoked; for every other message the answer is
    not a 400, and the language model is invoked exactly as the graph run on
    the built message list invokes it. *)
Theorem blank_message_rejected_before_engine :
  forall (validation_error : string -> args -> string)
         (llm : nat -> list BaseMessage -> outcome (string * list ToolCall))
         (limit : nat) (session_data : ChatSession),
    (strip (message session_data) = EmptyString ->
     log_interaction_chat validation_error llm limit session_data
     = (HTTPException 400 "Message cannot be empty.", []))
    /\ (strip (message session_data) <> EmptyString ->
        (forall detail,
            fst (log_interaction_chat validation_error llm limit session_data)
            <> HTTPException 400 detail)
        /\ snd (log_interaction_chat validation_error llm limit session_data)
           = snd (app_graph validation_error llm limit
                    (langchain_messages session_data))
        /\ hd_error (snd (log_interaction_chat validation_error llm (S limit)
                            session_data))
           = Some (langchain_messages session_data)).
Proof.
  intros validation_error llm limit session_data. split; intros H.
  - unfold log_interaction_chat. rewrite H. reflexivity.
  - unfold log_interaction_chat.
    destruct (strip (message session_data)) eqn:Hs; [congruence|]. cbn [truthy negb].
    split; [|split].
    + intros detail.
      destruct (app_graph validation_error llm limit (langchain_messages session_data))
        as [final trace].
      destruct (let* final_state := final in
                let* agent_response_message := last_item (messages final_state) in
                agent_response validation_error agent_response_message)
        as [[reply_text response_type]|e]; cbn; discriminate.
    + destruct (app_graph validation_error llm limit (langchain_messages session_data))
        as [final trace].
      destruct (let* final_state := final in
                let* agent_response_message := last_item (messages final_state) in
                agent_response validation_error agent_response_message)
        as [[reply_text response_type]|e]; reflexivity.
    + pose proof (app_graph_invokes_llm validation_error llm limit
                    (langchain_messages session_data)) as Hhd.
      destruct (app_graph validation_error llm (S limit) (langchain_messages session_data))
        as [final trace].
      destruct (let* final_state := final in
                let* agent_response_message := last_item (messages final_state) in
                agent_response validation_error agent_response_message)
        as [[reply_text response_type]|e]; exact Hhd.
Qed.

Lemma blank_message_rejected_before_engine_witness :
  log_interaction_chat Examples.validation_error Examples.greeting_llm 25
    Examples.blank_session
  = (HTTPException 400 "Message cannot be empty.", [])
  /\ hd_error (snd (log_interaction_chat Examples.validation_error
                      Examples.greeting_llm 25 Examples.greeting_session))
     = Some (langchain_messages Examples.greeting_session).
Proof.
  split.
  - apply (proj1 (blank_message_rejected_before_engine Examples.validation_error
                    Examples.greeting_llm 25 Examples.blank_session)).
    reflexivity.
  - apply (proj2 (blank_message_rejected_before_engine Examples.validation_error
                    Examples.greeting_llm 24 Examples.greeting_session)).
    discriminate.
Defined.

(** [s.rstrip()] is empty exactly when every character of [s] is
    whitespace. *)
Lemma rstrip_empty (s : string) : rstrip s = EmptyString <-> blank s = true.
Proof.
  induction s as [|c s IH]; [split; reflexivity|].
  unfold blank in *. cbn [rstrip list_ascii_of_string forallb].
  destruct (rstrip s) eqn:E.
  - destruct (is_space c); cbn [andb].
    + split; intros _; [apply IH|]; reflexivity.
    + split; discriminate.
  - split; [discriminate|]. intros H. apply andb_prop in H. destruct H as [_ H].
    apply IH in H. discriminate.
Qed.

Lemma blank_lstrip (s : string) : blank (lstrip s) = blank s.
Proof.
  induction s as [|c s IH]; [reflexivity|].
  cbn [lstrip]. unfold blank in *. cbn [list_ascii_of_string forallb].
  destruct (is_space c) eqn:E; cbn [andb]; [exact IH|].
  cbn [list_ascii_of_string forallb]. rewrite E. reflexivity.
Qed.

(** The messages the endpoint refuses are those made of whitespace only,
    the empty one among them. *)
Lemma strip_empty_iff_blank (s : string) :
  strip s = EmptyString <-> blank s = true.
Proof.
  unfold strip. rewrite rstrip_empty, blank_lstrip. reflexivity.
Qed.

(** The whitespace beyond ASCII counts: a message of a no-break space and a
    next-line character is refused. *)
Lemma no_break_space_message_is_refused :
  blank (message Scenarios.spaced_session) = true
  /\ log_interaction_chat_default Examples.validation_error Examples.greeting_llm
       Scenarios.spaced_session
     = (HTTPException 400 "Message cannot be empty.", [])
  /\ log_interaction_chat Examples.validation_error Examples.greeting_llm 24
       Scenarios.spaced_session
     = (HTTPException 400 "Message cannot be empty.", []).
Proof.
  repeat split.
Qed.

(** ** Termination of a turn *)








(** ** The draft-formatting tool *)

Lemma string_app_assoc (a b c : string) :
  ((a ++ b) ++ c = a ++ (b ++ c))%string.
Proof.
  induction a as [|x a IH]; cbn; [reflexivity | rewrite IH; reflexivity].
Qed.

Lemma strip_empty_of_empty (s : string) :
  truthy (strip s) = true -> truthy s = true.
Proof.
  destruct s; [discriminate | reflexivity].
Qed.

Lemma sentiment_display_value (o : option string) :
  match o with
  | Some s =>
      if truthy s && truthy (strip s) && negb (strip s =? "N/A")%string
      then strip s else "N/A"
  | None => "N/A"
  end = sentiment_value o.
Proof.
  destruct o as [s|]; [|reflexivity].
  unfold sentiment_value.
  destruct (strip s) as [|c r] eqn:E.
  - rewrite andb_false_r. reflexivity.
  - assert (Hs : truthy s = true) by (apply strip_empty_of_empty; rewrite E; reflexivity).
    rewrite Hs. cbn [truthy andb].
    change (String.eqb (String c r) EmptyString) with false. cbn [orb].
    destruct (String.eqb (String c r) "N/A"); reflexivity.
Qed.

Lemma text_value_some (s : string) :
  (if truthy s then s else "N/A") = text_value (Some s).
Proof.
  destruct s; reflexivity.
Qed.

Lemma text_value_opt (o : option string) :
  match o with
  | Some s => if truthy s then s else "N/A"
  | None => "N/A"
  end = text_value o.
Proof.
  destruct o as [[|c s]|]; reflexivity.
Qed.

Lemma list_value_some (o : option (list string)) :
  match match o with Some l => l | None => [] end with
  | [] => "N/A"
  | _ :: _ => join ", " match o with Some l => l | None => [] end
  end = list_value o.
Proof.
  destruct o as [[|x l]|]; reflexivity.
Qed.

(** The body of the tool is the template: eleven labelled lines in order. *)
Lemma log_interaction_tool_template
    (hcpName interactionDate topicsDiscussed : string)
    (interactionTime : option string) (interactionType : string)
    (attendees materialsShared samplesDistributed : option (list string))
    (hcpSentiment outcomes followUpActions : option string) :
  log_interaction_tool hcpName interactionDate topicsDiscussed interactionTime
    interactionType attendees materialsShared samplesDistributed hcpSentiment
    outcomes followUpActions
  = render
      [ text_value (Some hcpName); text_value (Some interactionDate);
        text_value interactionTime; text_value (Some interactionType);
        list_value attendees; text_value (Some topicsDiscussed);
        list_value materialsShared; list_value samplesDistributed;
        sentiment_value hcpSentiment; text_value outcomes;
        text_value followUpActions ].
Proof.
  unfold log_interaction_tool, render, labels.
  cbn [combine map join fst snd].
  rewrite !list_value_some, !text_value_some.
  rewrite sentiment_display_value, !text_value_opt.
  rewrite !string_app_assoc. reflexivity.
Qed.

Section Binding.
Variable validation_error : string -> args -> string.

Lemma required_str_typed (tool p : string) (a : args) :
  required_str validation_error tool p a
  = if is_str (dict_get p a) then Return (bound_str p a)
    else Raise (validation_error tool a).
Proof.
  unfold required_str, is_str, bound_str, text_arg.
  destruct (dict_get p a) as [[|s|l]|]; reflexivity.
Qed.

Lemma optional_str_typed (tool p : string) (a : args) :
  optional_str validation_error tool p a
  = if is_optional_str (dict_get p a) then Return (text_arg p a)
    else Raise (validation_error tool a).
Proof.
  unfold optional_str, is_optional_str, text_arg.
  destruct (dict_get p a) as [[|s|l]|]; reflexivity.
Qed.

Lemma optional_list_typed (tool p : string) (a : args) :
  optional_list validation_error tool p a
  = if is_optional_list (dict_get p a) then Return (list_arg p a)
    else Raise (validation_error tool a).
Proof.
  unfold optional_list, is_optional_list, list_arg.
  destruct (dict_get p a) as [[|s|l]|]; reflexivity.
Qed.

Lemma interaction_type_typed (tool : string) (a : args) :
  defaulted_str validation_error tool "interactionType" "Meeting" a
  = if is_defaulted_str (dict_get "interactionType" a)
    then Return match type_arg a with Some s => s | None => EmptyString end
    else Raise (validation_error tool a).
Proof.
  unfold defaulted_str, is_defaulted_str, type_arg, text_arg.
  destruct (dict_get "interactionType" a) as [[|s|l]|]; reflexivity.
Qed.

Lemma text_value_bound_str (p : string) (a : args) :
  text_value (Some (bound_str p a)) = text_value (text_arg p a).
Proof.
  unfold bound_str. destruct (text_arg p a) as [[|c s]|]; reflexivity.
Qed.

Lemma text_value_type_arg (a : args) :
  text_value (Some match type_arg a with Some s => s | None => EmptyString end)
  = text_value (type_arg a).
Proof.
  destruct (type_arg a) as [[|c s]|]; reflexivity.
Qed.

(** The invocation on a dict: the template on a well-typed dict, the
    wrapper's exception on any other. *)
Lemma invoke_log_interaction_tool_template (a : args) :
  invoke_log_interaction_tool validation_error a
  = if well_typed a then Return (expected_draft a)
    else Raise (validation_error "log_interaction_tool" a).
Proof.
  unfold invoke_log_interaction_tool, well_typed. cbv zeta.
  rewrite !required_str_typed, !optional_str_typed, !optional_list_typed,
    interaction_type_typed.
  repeat match goal with
         | |- context [is_str ?v] => destruct (is_str v); cbn [bind andb]; [|reflexivity]
         | |- context [is_optional_str ?v] =>
             destruct (is_optional_str v); cbn [bind andb]; [|reflexivity]
         | |- context [is_optional_list ?v] =>
             destruct (is_optional_list v); cbn [bind andb]; [|reflexivity]
         | |- context [is_defaulted_str ?v] =>
             destruct (is_defaulted_str v); cbn [bind andb]; [|reflexivity]
         end.
  rewrite log_interaction_tool_template. unfold expected_draft, filled.
  rewrite !text_value_bound_str, text_value_type_arg. reflexivity.
Qed.

End Binding.

(** C4, as stated, fails: invoked with the three required arguments alone
    (scenario 3), the tool fills the type line with Meeting, not with N/A,
    although the interaction type is missing from the arguments. *)
Lemma missing_type_reads_meeting :
  dict_get "interactionType" Examples.dr_lee = None
  /\ invoke_log_interaction_tool Examples.validation_error Examples.dr_lee
     = Return (join nl [ "**HCP:** Dr. Lee"; "**Date:** 01-06-2024"; "**Time:** N/A";
                         "**Type:** Meeting"; "**Attendees:** N/A";
                         "**Topics:** Drug X efficacy"; "**Materials Shared:** N/A";
                         "**Samples Distributed:** N/A"; "**Sentiment:** N/A";
                         "**Outcomes:** N/A"; "**Follow-up:** N/A" ])
  /\ stated_draft Examples.dr_lee
     = join nl [ "**HCP:** Dr. Lee"; "**Date:** 01-06-2024"; "**Time:** N/A";
                 "**Type:** N/A"; "**Attendees:** N/A";
                 "**Topics:** Drug X efficacy"; "**Materials Shared:** N/A";
                 "**Samples Distributed:** N/A"; "**Sentiment:** N/A";
                 "**Outcomes:** N/A"; "**Follow-up:** N/A" ]
  /\ invoke_log_interaction_tool Examples.validation_error Examples.dr_lee
     <> Return (stated_draft Examples.dr_lee).
Proof.
  repeat split. discriminate.
Qed.

(** C4, amended.  For every invocation of the draft-formatting tool on a dict
    its signature accepts, the returned text consists of exactly the eleven
    labelled lines of the template in the fixed order, list fields
    comma-joined, with N/A for every empty field and for every missing field
    other than the interaction type, which reads Meeting when it is missing;
    the sentiment is trimmed and reads N/A also when it is blank or N/A.  On
    any other dict the invocation raises and returns no text. *)
Theorem draft_follows_template :
  forall (validation_error : string -> args -> string) (a : args),
    invoke_log_interaction_tool validation_error a
    = (if well_typed a then Return (expected_draft a)
       else Raise (validation_error "log_interaction_tool" a))
    /\ length labels = 11.
Proof.
  intros validation_error a. split.
  - apply invoke_log_interaction_tool_template.
  - reflexivity.
Qed.

(** ** Dates and times: formatting, then parsing *)

Section RoundTrip.
Local Open Scope Z_scope.

Ltac div_lia := Z.to_euclidean_division_equations; lia.

Lemma digit_facts (k : Z) :
0 <= k <= 9 ->
is_digit (digit k) = true
/\ is_space (digit k) = false
/\ Z.of_nat (nat_of_ascii (digit k)) - 48 = k.
Proof.
intros H.
assert (C : k = 0 \/ k = 1 \/ k = 2 \/ k = 3 \/ k = 4 \/ k = 5 \/ k = 6
            \/ k = 7 \/ k = 8 \/ k = 9) by lia.
repeat (destruct C as [-> | C]; [repeat split|]). subst k. repeat split.
Qed.

Lemma to_int_two_digits (n : Z) :
0 <= n <= 99 -> to_int (two_digits n) = n.
Proof.
intros H. unfold to_int, two_digits. cbn [list_ascii_of_string fold_left].
destruct (digit_facts (n / 10)) as (D1 & _ & V1); [div_lia|].
destruct (digit_facts (n mod 10)) as (D2 & _ & V2); [div_lia|].
rewrite D1, D2, V1, V2. div_lia.
Qed.

Lemma to_int_four_digits (n : Z) :
0 <= n <= 9999 -> to_int (four_digits n) = n.
Proof.
intros H. unfold to_int, four_digits. cbn [list_ascii_of_string fold_left].
destruct (digit_facts (n / 1000)) as (D1 & _ & V1); [div_lia|].
destruct (digit_facts (n / 100 mod 10)) as (D2 & _ & V2); [div_lia|].
destruct (digit_facts (n / 10 mod 10)) as (D3 & _ & V3); [div_lia|].
destruct (digit_facts (n mod 10)) as (D4 & _ & V4); [div_lia|].
rewrite D1, D2, D3, D4, V1, V2, V3, V4. div_lia.
Qed.

Lemma first_match_head {A B : Type} (x : A) (rest : list A) (k : A -> option B)
  (b : B) :
k x = Some b -> first_match (x :: rest) k = Some b.
Proof.
intros H. cbn. rewrite H. reflexivity.
Qed.

(** Every value below [bound] satisfies [P] when the first [bound] naturals
  do. *)
Lemma below_cases (P : Z -> Prop) (bound : nat) :
(forall n : nat, (n < bound)%nat -> P (Z.of_nat n)) ->
forall z, 0 <= z < Z.of_nat bound -> P z.
Proof.
intros H z Hz. rewrite <- (Z2Nat.id z) by lia. apply H. lia.
Qed.

Tactic Notation "each_below" integer(bound) :=
let n := fresh "n" in
let Hn := fresh "Hn" in
intros n Hn;
do bound (destruct n as [|n]; [try (intros; lia); intros; eexists; reflexivity|]);
lia.

Lemma matches_re_d (n : Z) (rest : string) :
1 <= n <= 31 ->
exists others,
  matches re_d (two_digits n ++ rest) = (two_digits n, rest) :: others.
Proof.
intros H. generalize H. pattern n. apply (below_cases _ 32); [|lia].
each_below 32.
Qed.

Lemma matches_re_m (n : Z) (rest : string) :
1 <= n <= 12 ->
exists others,
  matches re_m (two_digits n ++ rest) = (two_digits n, rest) :: others.
Proof.
intros H. generalize H. pattern n. apply (below_cases _ 13); [|lia].
each_below 13.
Qed.

Lemma matches_re_H (n : Z) (rest : string) :
0 <= n <= 23 ->
exists others,
  matches re_H (two_digits n ++ rest) = (two_digits n, rest) :: others.
Proof.
intros H. generalize H. pattern n. apply (below_cases _ 24); [|lia].
each_below 24.
Qed.

Lemma matches_re_M (n : Z) (rest : string) :
0 <= n <= 59 ->
exists others,
  matches re_M (two_digits n ++ rest) = (two_digits n, rest) :: others.
Proof.
intros H. generalize H. pattern n. apply (below_cases _ 60); [|lia].
each_below 60.
Qed.

Lemma matches_lit (c : ascii) (rest : string) :
matches (lit c) (String c rest) = [(String c EmptyString, rest)].
Proof.
unfold lit. cbn [matches]. rewrite Ascii.eqb_refl. reflexivity.
Qed.

Lemma matches_re_Y (n : Z) :
0 <= n <= 9999 ->
matches re_Y (four_digits n) = [(four_digits n, EmptyString)].
Proof.
intros H. unfold re_Y, four_digits, any_digit.
destruct (digit_facts (n / 1000)) as (D1 & _); [div_lia|].
destruct (digit_facts (n / 100 mod 10)) as (D2 & _); [div_lia|].
destruct (digit_facts (n / 10 mod 10)) as (D3 & _); [div_lia|].
destruct (digit_facts (n mod 10)) as (D4 & _); [div_lia|].
cbn [matches flat_map map app fst snd]. rewrite D1. cbn [flat_map map app fst snd].
rewrite D2. cbn [flat_map map app fst snd]. rewrite D3.
cbn [flat_map map app fst snd]. rewrite D4. reflexivity.
Qed.

Lemma rstrip_no_space (s : string) :
Forall (fun c => is_space c = false) (list_ascii_of_string s) -> rstrip s = s.
Proof.
induction s as [|c s IH]; intros H; [reflexivity|].
cbn [list_ascii_of_string] in H. inversion H as [|? ? Hc Hs]; subst.
cbn [rstrip]. rewrite (IH Hs), Hc. destruct s; reflexivity.
Qed.

Lemma strip_no_space (s : string) :
Forall (fun c => is_space c = false) (list_ascii_of_string s) -> strip s = s.
Proof.
intros H. unfold strip.
assert (E : lstrip s = s).
{ destruct s as [|c s]; [reflexivity|].
  cbn [list_ascii_of_string] in H. inversion H as [|? ? Hc Hs]; subst.
  cbn [lstrip]. rewrite Hc. reflexivity. }
rewrite E. apply rstrip_no_space, H.
Qed.

Lemma is_space_digit (k : Z) : 0 <= k <= 9 -> is_space (digit k) = false.
Proof.
intros H. apply digit_facts, H.
Qed.

Lemma valid_date_bounds (d : date) :
valid_date d = true ->
1 <= year d <= 9999 /\ 1 <= month d <= 12 /\ 1 <= day d <= 31.
Proof.
unfold valid_date. intros H.
repeat (apply andb_prop in H; destruct H as [H ?]).
assert (Hd : days_in_month (year d) (month d) <= 31).
{ unfold days_in_month.
  destruct (month d) as [|p|p]; try lia.
  repeat (destruct p as [p|p|]; try lia); destruct (is_leap (year d)); lia. }
lia.
Qed.

Lemma valid_time_bounds (t : time) :
valid_time t = true -> 0 <= hour t <= 23 /\ 0 <= minute t <= 59.
Proof.
unfold valid_time. intros H.
repeat (apply andb_prop in H; destruct H as [H ?]). lia.
Qed.

(** From the year 1000 on, [%Y] gives four digits. *)
Lemma year_digits_four (y : Z) : 1000 <= y -> year_digits y = four_digits y.
Proof.
intros H. unfold year_digits.
destruct (Z.ltb_spec y 10); [lia|]. destruct (Z.ltb_spec y 100); [lia|].
destruct (Z.ltb_spec y 1000); [lia|]. reflexivity.
Qed.

Lemma to_int_three_digits (n : Z) :
0 <= n <= 999 -> to_int (three_digits n) = n.
Proof.
intros H. unfold to_int, three_digits, two_digits.
cbn [list_ascii_of_string fold_left].
destruct (digit_facts (n / 100)) as (D1 & _ & V1); [div_lia|].
destruct (digit_facts (n mod 100 / 10)) as (D2 & _ & V2); [div_lia|].
destruct (digit_facts (n mod 100 mod 10)) as (D3 & _ & V3); [div_lia|].
rewrite D1, D2, D3, V1, V2, V3. div_lia.
Qed.

(** The digits of a year read back as the year, padded or not. *)
Lemma to_int_year_digits (y : Z) :
0 <= y <= 9999 -> to_int (year_digits y) = y.
Proof.
intros H. unfold year_digits.
destruct (Z.ltb_spec y 10);
  [|destruct (Z.ltb_spec y 100); [|destruct (Z.ltb_spec y 1000)]].
- unfold to_int. cbn [list_ascii_of_string fold_left].
  destruct (digit_facts y) as (D & _ & V); [lia|]. rewrite D, V. lia.
- apply to_int_two_digits. lia.
- apply to_int_three_digits. lia.
- apply to_int_four_digits. lia.
Qed.

Lemma digit_injective (a b : Z) :
0 <= a <= 9 -> 0 <= b <= 9 -> digit a = digit b -> a = b.
Proof.
intros Ha Hb E.
destruct (digit_facts a Ha) as (_ & _ & Va).
destruct (digit_facts b Hb) as (_ & _ & Vb).
rewrite E in Va. lia.
Qed.

Lemma strip_strftime_date (d : date) :
valid_date d = true -> strip (strftime_date d) = strftime_date d.
Proof.
intros H. apply valid_date_bounds in H. destruct H as (Hy & Hm & Hd).
apply strip_no_space. unfold strftime_date, year_digits.
destruct (Z.ltb_spec (year d) 10); [|destruct (Z.ltb_spec (year d) 100);
  [|destruct (Z.ltb_spec (year d) 1000)]];
  unfold three_digits, two_digits, four_digits;
  cbn [append list_ascii_of_string];
  repeat (constructor; [first [reflexivity | apply is_space_digit; div_lia]|]);
  constructor.
Qed.

Lemma strip_strftime_time (t : time) :
valid_time t = true -> strip (strftime_time t) = strftime_time t.
Proof.
intros H. apply valid_time_bounds in H. destruct H as (Hh & Hm).
apply strip_no_space. unfold strftime_time, two_digits.
cbn [append list_ascii_of_string].
repeat (constructor; [first [reflexivity | apply is_space_digit; div_lia]|]).
constructor.
Qed.

Lemma strptime_strftime_date (d : date) :
valid_date d = true -> 1000 <= year d ->
strptime_date (strftime_date d) = Some d.
Proof.
intros H Hy4. pose proof (valid_date_bounds d H) as (Hy & Hm & Hd).
unfold strptime_date, strftime_date. rewrite (year_digits_four _ Hy4).
cbn [append].
destruct (matches_re_d (day d)
            (String "-" (two_digits (month d) ++ String "-" (four_digits (year d))))
            Hd)
  as [others_d Ed].
destruct (matches_re_m (month d) (String "-" (four_digits (year d))) Hm)
  as [others_m Em].
rewrite Ed.
rewrite (first_match_head _ _ _
           (two_digits (day d), two_digits (month d), four_digits (year d),
            EmptyString)).
- rewrite !to_int_two_digits, to_int_four_digits by lia.
  destruct d as [y m dd]. cbn [year month day] in *. rewrite H. reflexivity.
- cbn [fst snd append]. rewrite matches_lit. cbn [first_match fst snd].
  rewrite Em. cbn [first_match fst snd append]. rewrite matches_lit.
  cbn [first_match fst snd]. rewrite matches_re_Y by lia. reflexivity.
Qed.

Lemma strptime_strftime_time (t : time) :
valid_time t = true ->
strptime_time (strftime_time t)
= Some {| hour := hour t; minute := minute t; second := 0; microsecond := 0 |}.
Proof.
intros H. pose proof (valid_time_bounds t H) as (Hh & Hm).
unfold strptime_time, strftime_time. cbn [append].
destruct (matches_re_H (hour t) (String ":" (two_digits (minute t))) Hh)
  as [others_h Eh].
destruct (matches_re_M (minute t) EmptyString Hm) as [others_m Em].
rewrite Eh.
rewrite (first_match_head _ _ _
           (two_digits (hour t), two_digits (minute t), EmptyString)).
- rewrite !to_int_two_digits by lia. reflexivity.
- cbn [fst snd append]. rewrite matches_lit. cbn [first_match fst snd].
  replace (two_digits (minute t)) with (two_digits (minute t) ++ EmptyString)%string
    by (unfold two_digits; reflexivity).
  rewrite Em. reflexivity.
Qed.

End RoundTrip.

Lemma parse_interaction_date_text (c : ascii) (s : string) :
  parse_interaction_date (Some (VStr (String c s)))
  = match strptime_date (strip (String c s)) with
    | Some d => Response (Some d)
    | None =>
        HTTPException 400
          ("Invalid date format for 'interactionDate': '" ++ String c s
           ++ "'. Expected DD-MM-YYYY.")%string
    end.
Proof.
  reflexivity.
Qed.

Lemma parse_interaction_time_text (c : ascii) (s : string) :
  parse_interaction_time (Some (VStr (String c s)))
  = match strptime_time (strip (String c s)) with
    | Some t => Response (Some t)
    | None =>
        HTTPException 400
          ("Invalid time format for 'interactionTime': '" ++ String c s
           ++ "'. Expected HH:MM.")%string
    end.
Proof.
  reflexivity.
Qed.

(** C5, as stated, fails, on times and on dates.  10:30:45 is a valid time
    of day; the listing renders it as "10:30", and parsing that text back
    gives half past ten sharp, a different time.  The third of December 999
    is a valid date; the listing renders it as "03-12-999", the year on three
    digits, and the pre-parsing of the confirmation path, which wants four,
    refuses that text with a 400. *)
Lemma seconds_and_early_years_are_lost :
  (valid_time (mkTime 10 30 45 0) = true
   /\ strftime_time (mkTime 10 30 45 0) = "10:30"
   /\ parse_interaction_time (Some (VStr (strftime_time (mkTime 10 30 45 0))))
      = Response (Some (mkTime 10 30 0 0))
   /\ mkTime 10 30 0 0 <> mkTime 10 30 45 0)
  /\ (valid_date (mkDate 999 12 3) = true
      /\ strftime_date (mkDate 999 12 3) = "03-12-999"
      /\ parse_interaction_date (Some (VStr (strftime_date (mkDate 999 12 3))))
         = HTTPException 400
             "Invalid date format for 'interactionDate': '03-12-999'. Expected DD-MM-YYYY.").
Proof.
  split; repeat split. discriminate.
Qed.

(** C5, amended.  For every valid calendar date from the year 1000 on and
    every valid time of day with no seconds and no microseconds, rendering
    the date as DD-MM-YYYY and the time as HH:MM, as the listing does, and
    parsing the texts back with the pre-parsing of the confirmation path
    gives the same date and the same time. *)
Theorem format_then_parse_round_trip :
  forall (d : date) (t : time),
    valid_date d = true ->
    (1000 <= year d)%Z ->
    valid_time t = true ->
    second t = 0%Z ->
    microsecond t = 0%Z ->
    parse_interaction_date (Some (VStr (strftime_date d))) = Response (Some d)
    /\ parse_interaction_time (Some (VStr (strftime_time t))) = Response (Some t).
Proof.
  intros d t Hd Hy Ht Hs Hus. split.
  - pose proof (strip_strftime_date d Hd) as Hstrip.
    pose proof (strptime_strftime_date d Hd Hy) as Hparse.
    unfold strftime_date, two_digits in *. cbn [append] in *.
    rewrite parse_interaction_date_text, Hstrip, Hparse. reflexivity.
  - pose proof (strip_strftime_time t Ht) as Hstrip.
    pose proof (strptime_strftime_time t Ht) as Hparse.
    unfold strftime_time, two_digits in *. cbn [append] in *.
    rewrite parse_interaction_time_text, Hstrip, Hparse.
    destruct t as [h m s us]. cbn [hour minute second microsecond] in *.
    subst. reflexivity.
Qed.

Lemma format_then_parse_round_trip_witness :
  parse_interaction_date (Some (VStr (strftime_date (mkDate 2024 2 29))))
  = Response (Some (mkDate 2024 2 29))
  /\ parse_interaction_time (Some (VStr (strftime_time (mkTime 23 59 0 0))))
     = Response (Some (mkTime 23 59 0 0)).
Proof.
  apply (format_then_parse_round_trip (mkDate 2024 2 29) (mkTime 23 59 0 0));
    first [reflexivity | cbn; lia].
Defined.

(** Two valid dates with the same rendering are the same date, whatever
    the number of digits of their years: the day and the month are read off
    the first five characters, and the year off the rest. *)
Lemma strftime_date_injective (d1 d2 : date) :
  valid_date d1 = true -> valid_date d2 = true ->
  strftime_date d1 = strftime_date d2 -> d1 = d2.
Proof.
  intros H1 H2 E.
  apply valid_date_bounds in H1, H2.
  destruct d1 as [y1 m1 a1], d2 as [y2 m2 a2]. cbn [year month day] in *.
  unfold strftime_date, two_digits in E. cbn [append year month day] in E.
  injection E as Ea1 Ea0 Em1 Em0 Ey.
  apply digit_injective in Ea1, Ea0, Em1, Em0;
    try (Z.to_euclidean_division_equations; lia).
  apply (f_equal to_int) in Ey. rewrite !to_int_year_digits in Ey by lia.
  assert (a1 = a2) by (Z.to_euclidean_division_equations; lia).
  assert (m1 = m2) by (Z.to_euclidean_division_equations; lia).
  subst. reflexivity.
Qed.

(** ** The sentiment of a confirmed draft *)

Lemma validate_form_sentiment (draft_data : args) (interaction_date_obj : option date)
    (interaction_time_obj : option time) (hcp_sentiment : option string)
    (parsed_data : HCPInteractionForm.t) :
  validate_form draft_data interaction_date_obj interaction_time_obj hcp_sentiment
  = Some parsed_data ->
  HCPInteractionForm.hcpSentiment parsed_data = hcp_sentiment.
Proof.
  unfold validate_form.
  repeat match goal with
         | |- context [match ?x with _ => _ end] => destruct x; try discriminate
         end.
  intros H. inversion H. reflexivity.
Qed.

(** C10, as stated, fails: the sentiment " Positive ", with a blank on either
    side, is not N/A, not blank and not one of the three literals, and yet the
    draft is not rejected: it is stored, with the sentiment Positive. *)
Lemma padded_sentiment_is_accepted :
  mem " Positive " ["Positive"; "Neutral"; "Negative"] = false
  /\ confirm_chat_interaction_log Examples.errors Examples.padded_draft []
     = (Response (LogConfirmation.mk "Log confirmed and saved successfully!" 1),
        [ InteractionLogDB.mk 1 "Dr. Lee" (mkDate 2024 6 1) (Some (mkTime 10 30 0 0))
            "Meeting" [] "Drug X efficacy" [] [] (Some "Positive")
            EmptyString EmptyString ]).
Proof.
  split; reflexivity.
Qed.

(** C10, amended.  On the chat-confirmation path the hcpSentiment of every
    submitted draft that gives it as a text, or does not give it at all and
    is then read as the empty text, is first trimmed of surrounding
    whitespace.  A trimmed value equal to N/A or empty becomes null; a trimmed
    value that is one of Positive, Neutral, Negative is kept as trimmed; any
    other trimmed value makes the endpoint answer 400 with the sentiment
    message and leave the table as it was, whatever the date, the time and
    the other fields of the draft are; and whenever the endpoint stores the
    draft, the stored sentiment is the normalized one. *)
Theorem sentiment_is_normalized_then_checked :
  forall (errors : args -> string) (draft_data : args)
         (db : list InteractionLogDB.t) (s : string),
    dict_get "hcpSentiment" draft_data = Some (VStr s)
    \/ (dict_get "hcpSentiment" draft_data = None /\ s = EmptyString) ->
    (strip s = "N/A" \/ strip s = EmptyString ->
     normalize_sentiment (strip s) = None)
    /\ (mem (strip s) ["Positive"; "Neutral"; "Negative"] = true ->
        check_sentiment (normalize_sentiment (strip s)) = Response (Some (strip s)))
    /\ (strip s <> "N/A" -> strip s <> EmptyString ->
        mem (strip s) ["Positive"; "Neutral"; "Negative"] = false ->
        confirm_chat_interaction_log errors draft_data db
        = (HTTPException 400
             ("Invalid HCP Sentiment: '" ++ strip s
              ++ "'. Must be Positive, Neutral, Negative, or empty/N/A.")%string,
           db))
    /\ (forall confirmation db',
           confirm_chat_interaction_log errors draft_data db
           = (Response confirmation, db') ->
           exists row,
             db' = db ++ [row]
             /\ InteractionLogDB.hcpSentiment row = normalize_sentiment (strip s)).
Proof.
  intros errors draft_data db s Hget.
  assert (Hstripped : stripped_sentiment draft_data = Response (strip s)).
  { unfold stripped_sentiment. destruct Hget as [-> | [-> ->]]; reflexivity. }
  split; [|split; [|split]].
  - unfold normalize_sentiment. intros [-> | ->]; reflexivity.
  - unfold mem. cbn [existsb]. intros H.
    repeat (apply orb_prop in H; destruct H as [H|H]);
      try discriminate; apply String.eqb_eq in H; rewrite H; reflexivity.
  - intros Hna Hblank Hmem. unfold confirm_chat_interaction_log.
    rewrite Hstripped. cbn [http_bind]. unfold normalize_sentiment.
    apply String.eqb_neq in Hna, Hblank. rewrite Hna, Hblank. cbn [orb].
    unfold check_sentiment, sentiment_allowed. rewrite Hmem. reflexivity.
  - intros confirmation db'. unfold confirm_chat_interaction_log.
    rewrite Hstripped. cbn [http_bind].
    destruct (check_sentiment (normalize_sentiment (strip s))) as [sentiment|c d] eqn:Hc;
      cbn [http_bind]; [|intros H; inversion H].
    assert (Hs : sentiment = normalize_sentiment (strip s)).
    { unfold check_sentiment in Hc.
      destruct (sentiment_allowed (normalize_sentiment (strip s)));
        inversion Hc; reflexivity. }
    destruct (parse_interaction_date (dict_get "interactionDate" draft_data))
      as [interaction_date_obj|c d]; cbn [http_bind]; [|intros H; inversion H].
    destruct (parse_interaction_time (dict_get "interactionTime" draft_data))
      as [interaction_time_obj|c d]; cbn [http_bind]; [|intros H; inversion H].
    destruct (validate_form draft_data interaction_date_obj interaction_time_obj sentiment)
      as [parsed_data|] eqn:Hv; [|intros H; inversion H].
    apply validate_form_sentiment in Hv.
    unfold db_add. intros H. inversion H. eexists. split; [reflexivity|].
    cbn. rewrite Hv. exact Hs.
Qed.

Lemma sentiment_is_normalized_then_checked_witness :
  confirm_chat_interaction_log Examples.errors Examples.happy_draft []
  = (HTTPException 400
       "Invalid HCP Sentiment: 'Happy'. Must be Positive, Neutral, Negative, or empty/N/A.",
     []).
Proof.
  apply (proj1 (proj2 (proj2 (sentiment_is_normalized_then_checked
                                Examples.errors Examples.happy_draft [] "Happy"
                                (or_introl eq_refl))))).
  - discriminate.
  - discriminate.
  - reflexivity.
Defined.

(** A no-break space after the sentiment is trimmed like a blank: the draft is
    stored, with the sentiment Positive. *)
Lemma no_break_space_after_sentiment_is_trimmed :
  confirm_chat_interaction_log Examples.errors Scenarios.spaced_draft []
  = (Response (LogConfirmation.mk "Log confirmed and saved successfully!" 1),
     [ InteractionLogDB.mk 1 "Dr. Lee" (mkDate 2024 6 1) None
         "Meeting" [] "Drug X efficacy" [] [] (Some "Positive")
         EmptyString EmptyString ]).
Proof.
  reflexivity.
Qed.

(** * Further properties *)

(** ** Substrings of concatenations *)

Lemma lower_app (a b : string) :
  lower (a ++ b)%string = (lower a ++ lower b)%string.
Proof.
  induction a as [|c a IH]; cbn; [reflexivity | rewrite IH; reflexivity].
Qed.

Lemma prefix_app (w b : string) : prefix w (w ++ b)%string = true.
Proof.
  induction w as [|c w IH]; cbn; [destruct b; reflexivity|].
  destruct (ascii_dec c c); [exact IH | congruence].
Qed.

Lemma prefix_empty (s : string) : prefix EmptyString s = true.
Proof.
  destruct s; reflexivity.
Qed.

(** [w] occurs in any text built around it. *)
Lemma str_in_infix (a w b : string) : str_in w (a ++ w ++ b)%string = true.
Proof.
  induction a as [|c a IH].
  - cbn [append]. destruct (w ++ b)%string eqn:E.
    + cbn. destruct w; [reflexivity | discriminate].
    + cbn [str_in]. rewrite <- E, prefix_app. reflexivity.
  - cbn [append str_in]. rewrite IH. apply orb_true_r.
Qed.

Lemma absent_cons (c a : ascii) (w : string) :
  absent c (String a w) = true -> a <> c /\ absent c w = true.
Proof.
  unfold absent. cbn [list_ascii_of_string existsb]. intros H.
  apply negb_true_iff, orb_false_elim in H. destruct H as [H1 H2].
  split.
  - intros ->. rewrite Ascii.eqb_refl in H1. discriminate.
  - rewrite H2. reflexivity.
Qed.

(** A match of [w] cannot run into a character that [w] does not hold. *)
Lemma prefix_app_absent (w s t : string) (c : ascii) :
  absent c w = true ->
  prefix w (s ++ String c t)%string = prefix w s.
Proof.
  revert s. induction w as [|a w IH]; intros s H.
  - rewrite !prefix_empty. reflexivity.
  - apply absent_cons in H. destruct H as [Hac Hw].
    destruct s as [|b s]; cbn [append prefix].
    + destruct (ascii_dec a c); [contradiction | reflexivity].
    + destruct (ascii_dec a b); [apply IH, Hw | reflexivity].
Qed.

(** An occurrence of [w] in a concatenation lies in one of the two parts when
    the second part starts with a character that [w] does not hold. *)
Lemma str_in_app_absent (w s t : string) (c : ascii) :
  absent c w = true ->
  str_in w (s ++ String c t)%string = str_in w s || str_in w (String c t).
Proof.
  intros H. set (X := str_in w (String c t)). induction s as [|b s IH].
  - cbn [append]. fold X. destruct w as [|a w]; [reflexivity|]. reflexivity.
  - change (String b s ++ String c t)%string with (String b (s ++ String c t)%string).
    cbn [str_in].
    change (String b (s ++ String c t)%string) with (String b s ++ String c t)%string.
    rewrite prefix_app_absent by exact H. rewrite IH.
    rewrite !orb_assoc. reflexivity.
Qed.

(** ** What the tools' outputs hold *)

(** X7.  The summary of a text triggers the loop-back rule exactly
    when the first hundred characters of the text hold "question" or
    "clarify" (in any case): the fixed words around the excerpt hold neither. *)
Theorem summary_loops_back_on_its_excerpt :
  forall text : string,
    question_marker (summarize_interaction_tool text)
    = question_marker (take 100 text).
Proof.
  intros text. unfold question_marker, summarize_interaction_tool.
  rewrite !lower_app.
  change (lower "Summary of provided text: '") with "summary of provided text: '".
  change (lower "...' (mock summary)") with "...' (mock summary)".
  set (excerpt := lower (take 100 text)).
  assert (Q : str_in "question" ("summary of provided text: '" ++ excerpt
                                  ++ "...' (mock summary)")%string
              = str_in "question" excerpt).
  { cbn [append str_in prefix]. cbn.
    change ("...' (mock summary)") with (String "." "..' (mock summary)").
    rewrite str_in_app_absent by reflexivity. cbn. apply orb_false_r. }
  assert (C : str_in "clarify" ("summary of provided text: '" ++ excerpt
                                 ++ "...' (mock summary)")%string
              = str_in "clarify" excerpt).
  { cbn.
    change ("...' (mock summary)") with (String "." "..' (mock summary)").
    rewrite str_in_app_absent by reflexivity. cbn. apply orb_false_r. }
  rewrite Q, C. reflexivity.
Qed.

Lemma str_in_retrieved (w name : string) :
  absent ":" w = true ->
  str_in w ": speciality: cardiology, location: city hospital." = false ->
  str_in w (name ++ ": speciality: cardiology, location: city hospital.")%string
  = str_in w name.
Proof.
  intros Ha Hs.
  change ": speciality: cardiology, location: city hospital."
    with (String ":" " speciality: cardiology, location: city hospital.") in *.
  rewrite str_in_app_absent by exact Ha. rewrite Hs. apply orb_false_r.
Qed.

(** X9.  The outputs of the two placeholder tools trigger the loop-back
    rule exactly when an argument does: the looked-up name for
    [retrieve_hcp_info_tool]; the identifier, the field or the new value for
    [edit_interaction_tool]. *)
Theorem placeholder_tools_loop_back_on_their_arguments :
  forall hcp_name interaction_id field_to_edit new_value : string,
    question_marker (retrieve_hcp_info_tool hcp_name) = question_marker hcp_name
    /\ question_marker (edit_interaction_tool interaction_id field_to_edit new_value)
       = question_marker interaction_id || question_marker field_to_edit
         || question_marker new_value.
Proof.
  intros hcp_name interaction_id field_to_edit new_value. split.
  - unfold question_marker, retrieve_hcp_info_tool. rewrite !lower_app.
    change (lower "Mock: Retrieved info for ") with "mock: retrieved info for ".
    change (lower ": Speciality: Cardiology, Location: City Hospital.")
      with ": speciality: cardiology, location: city hospital.".
    set (name := lower hcp_name).
    assert (Q : str_in "question"
                  ("mock: retrieved info for " ++ name
                   ++ ": speciality: cardiology, location: city hospital.")%string
                = str_in "question" name).
    { cbn. apply str_in_retrieved; reflexivity. }
    assert (C : str_in "clarify"
                  ("mock: retrieved info for " ++ name
                   ++ ": speciality: cardiology, location: city hospital.")%string
                = str_in "clarify" name).
    { cbn. apply str_in_retrieved; reflexivity. }
    rewrite Q, C. reflexivity.
  - unfold question_marker, edit_interaction_tool. rewrite !lower_app.
    change (lower "Mock: Interaction ") with "mock: interaction ".
    change (lower " field '") with " field '".
    change (lower "' updated to '") with "' updated to '".
    change (lower "'.") with "'.".
    set (i := lower interaction_id). set (f := lower field_to_edit).
    set (v := lower new_value).
    assert (E : forall w,
               absent " " w = true -> absent "'" w = true ->
               str_in w "'." = false ->
               (forall s, str_in w ("mock: interaction " ++ s)%string = str_in w s) ->
               (forall s, str_in w (" field '" ++ s)%string = str_in w s) ->
               (forall s, str_in w ("' updated to '" ++ s)%string = str_in w s) ->
               str_in w ("mock: interaction " ++ i ++ " field '" ++ f
                         ++ "' updated to '" ++ v ++ "'.")%string
               = str_in w i || str_in w f || str_in w v).
    { intros w Hsp Hq Hend H1 H2 H3.
      rewrite H1.
      change (" field '" ++ f ++ "' updated to '" ++ v ++ "'.")%string
        with (String " " ("field '" ++ f ++ "' updated to '" ++ v ++ "'."))%string.
      rewrite str_in_app_absent by exact Hsp.
      change (String " " ("field '" ++ f ++ "' updated to '" ++ v ++ "'."))%string
        with (" field '" ++ f ++ "' updated to '" ++ v ++ "'.")%string.
      rewrite H2.
      change ("' updated to '" ++ v ++ "'.")%string
        with (String "'" (" updated to '" ++ v ++ "'."))%string.
      rewrite str_in_app_absent by exact Hq.
      change (String "'" (" updated to '" ++ v ++ "'."))%string
        with ("' updated to '" ++ v ++ "'.")%string.
      rewrite H3.
      change "'." with (String "'" ".") in *.
      rewrite str_in_app_absent by exact Hq. rewrite Hend, orb_false_r.
      apply orb_assoc. }
    rewrite (E "question"), (E "clarify"); try reflexivity;
      try (intros s; cbn; reflexivity).
    destruct (str_in "question" i), (str_in "question" f), (str_in "question" v),
      (str_in "clarify" i), (str_in "clarify" f), (str_in "clarify" v); reflexivity.
Qed.

Lemma str_in_built (a w b text : string) :
  text = (a ++ w ++ b)%string -> str_in w text = true.
Proof.
  intros ->. apply str_in_infix.
Qed.

Lemma render_has_draft_markers (v1 v2 v3 v4 v5 v6 v7 v8 v9 v10 v11 : string) :
  draft_marker (render [v1; v2; v3; v4; v5; v6; v7; v8; v9; v10; v11]) = true.
Proof.
  unfold draft_marker, render, labels. cbn [combine map join fst snd].
  set (tail7 := (("**Materials Shared:**" ++ " " ++ v7) ++ nl
                 ++ ("**Samples Distributed:**" ++ " " ++ v8) ++ nl
                 ++ ("**Sentiment:**" ++ " " ++ v9) ++ nl
                 ++ ("**Outcomes:**" ++ " " ++ v10) ++ nl
                 ++ "**Follow-up:**" ++ " " ++ v11)%string).
  assert (H1 : str_in "**HCP:**"
                 (("**HCP:**" ++ " " ++ v1) ++ nl ++ ("**Date:**" ++ " " ++ v2) ++ nl
                  ++ ("**Time:**" ++ " " ++ v3) ++ nl ++ ("**Type:**" ++ " " ++ v4) ++ nl
                  ++ ("**Attendees:**" ++ " " ++ v5) ++ nl
                  ++ ("**Topics:**" ++ " " ++ v6) ++ nl ++ tail7)%string = true).
  { reflexivity. }
  assert (H2 : str_in "**Date:**"
                 (("**HCP:**" ++ " " ++ v1) ++ nl ++ ("**Date:**" ++ " " ++ v2) ++ nl
                  ++ ("**Time:**" ++ " " ++ v3) ++ nl ++ ("**Type:**" ++ " " ++ v4) ++ nl
                  ++ ("**Attendees:**" ++ " " ++ v5) ++ nl
                  ++ ("**Topics:**" ++ " " ++ v6) ++ nl ++ tail7)%string = true).
  { apply (str_in_built (("**HCP:**" ++ " " ++ v1) ++ nl) "**Date:**"
                  (" " ++ v2 ++ nl
                   ++ ("**Time:**" ++ " " ++ v3) ++ nl ++ ("**Type:**" ++ " " ++ v4) ++ nl
                   ++ ("**Attendees:**" ++ " " ++ v5) ++ nl
                   ++ ("**Topics:**" ++ " " ++ v6) ++ nl ++ tail7)).
    rewrite !string_app_assoc. reflexivity. }
  assert (H3 : str_in "**Topics:**"
                 (("**HCP:**" ++ " " ++ v1) ++ nl ++ ("**Date:**" ++ " " ++ v2) ++ nl
                  ++ ("**Time:**" ++ " " ++ v3) ++ nl ++ ("**Type:**" ++ " " ++ v4) ++ nl
                  ++ ("**Attendees:**" ++ " " ++ v5) ++ nl
                  ++ ("**Topics:**" ++ " " ++ v6) ++ nl ++ tail7)%string = true).
  { apply (str_in_built
                  (("**HCP:**" ++ " " ++ v1) ++ nl ++ ("**Date:**" ++ " " ++ v2) ++ nl
                   ++ ("**Time:**" ++ " " ++ v3) ++ nl ++ ("**Type:**" ++ " " ++ v4) ++ nl
                   ++ ("**Attendees:**" ++ " " ++ v5) ++ nl)
                  "**Topics:**" (" " ++ v6 ++ nl ++ tail7)).
    rewrite !string_app_assoc. reflexivity. }
  rewrite H1, H2, H3. reflexivity.
Qed.

(** X4.  Whatever its arguments, the text the drafting tool
    returns holds the three markers **HCP:**, **Date:** and **Topics:**, so the
    endpoint's marker test recognises every draft of the tool. *)
Theorem every_draft_has_the_markers :
  forall (hcpName interactionDate topicsDiscussed : string)
         (interactionTime : option string) (interactionType : string)
         (attendees materialsShared samplesDistributed : option (list string))
         (hcpSentiment outcomes followUpActions : option string),
    draft_marker
      (log_interaction_tool hcpName interactionDate topicsDiscussed interactionTime
         interactionType attendees materialsShared samplesDistributed hcpSentiment
         outcomes followUpActions) = true.
Proof.
  intros. rewrite log_interaction_tool_template. apply render_has_draft_markers.
Qed.

Lemma expected_draft_has_markers (a : args) : draft_marker (expected_draft a) = true.
Proof.
  unfold expected_draft, filled. apply render_has_draft_markers.
Qed.

(** ** A turn of the chat endpoint *)

Section TurnFacts.
Variable validation_error : string -> args -> string.
Variable llm : nat -> list BaseMessage -> outcome (string * list ToolCall).

(** The endpoint on a message that is not blank. *)
Lemma log_interaction_chat_not_blank (limit : nat) (session_data : ChatSession) :
  strip (message session_data) <> EmptyString ->
  log_interaction_chat validation_error llm limit session_data
  = let (final_state, trace) :=
      app_graph validation_error llm limit (langchain_messages session_data) in
    match (let* final_state := final_state in
           let* agent_response_message := last_item (messages final_state) in
           agent_response validation_error agent_response_message) with
    | Return (reply_text, response_type) =>
        (Response {| reply := reply_text; type := response_type |}, trace)
    | Raise e => (HTTPException 500 ("Error processing chat: " ++ e)%string, trace)
    end.
Proof.
  intros H. unfold log_interaction_chat.
  destruct (strip (message session_data)); [congruence | reflexivity].
Qed.

(** One round through the tools whose last output holds no loop-back word:
    the turn ends there and that output is the reply. *)
Lemma chat_tool_round (limit : nat) (session_data : ChatSession) (content : string)
    (tool_calls : list ToolCall) (tool_call : ToolCall) :
  strip (message session_data) <> EmptyString ->
  llm 0 (langchain_messages session_data) = Return (content, tool_calls ++ [tool_call]) ->
  question_marker (tool_output_content validation_error tool_call) = false ->
  log_interaction_chat validation_error llm (S (S limit)) session_data
  = (Response {| reply := tool_output_content validation_error tool_call;
                 type := if draft_marker (tool_output_content validation_error tool_call)
                         then "draft" else "text" |},
     [langchain_messages session_data]).
Proof.
  intros Hmsg Hllm Hq.
  rewrite log_interaction_chat_not_blank by exact Hmsg.
  unfold app_graph. cbn [run_graph].
  rewrite (step_llm_node validation_error llm _ [] content (tool_calls ++ [tool_call]))
    by exact Hllm.
  replace (match tool_calls ++ [tool_call] with [] => Node_END | _ :: _ => Node_tools end)
    with Node_tools by (destruct tool_calls; reflexivity).
  rewrite (step_tools_node validation_error llm [] content tool_calls tool_call).
  rewrite Hq, run_graph_END. cbn [bind messages app].
  rewrite map_app. cbn [map]. unfold tool_output at 2.
  change (AIMessage content (tool_calls ++ [tool_call])
            :: map (tool_output validation_error) tool_calls
            ++ [ToolMessage (tool_output_content validation_error tool_call)
                  (tool_call_id tool_call)])
    with ((AIMessage content (tool_calls ++ [tool_call])
             :: map (tool_output validation_error) tool_calls)
          ++ [ToolMessage (tool_output_content validation_error tool_call)
                (tool_call_id tool_call)]).
  rewrite last_item_app. cbn [bind agent_response]. rewrite Hq.
  destruct (draft_marker (tool_output_content validation_error tool_call)); reflexivity.
Qed.

End TurnFacts.

(** X1.  When the language model answers the first invocation without
    tool calls, the turn ends at once: the reply is the answer's text, of type
    draft if the text holds the three draft markers and text otherwise, and the
    model was invoked once, on the built message list. *)
Theorem plain_answer_is_the_reply :
  forall (validation_error : string -> args -> string)
         (llm : nat -> list BaseMessage -> outcome (string * list ToolCall))
         (limit : nat) (session_data : ChatSession) (content : string),
    strip (message session_data) <> EmptyString ->
    llm 0 (langchain_messages session_data) = Return (content, []) ->
    log_interaction_chat validation_error llm (S limit) session_data
    = (Response {| reply := content;
                   type := if draft_marker content then "draft" else "text" |},
       [langchain_messages session_data]).
Proof.
  intros validation_error llm limit session_data content Hmsg Hllm.
  rewrite log_interaction_chat_not_blank by exact Hmsg.
  unfold app_graph. cbn [run_graph].
  rewrite (step_llm_node validation_error llm _ [] content []) by exact Hllm.
  rewrite run_graph_END. cbn. destruct (draft_marker content); reflexivity.
Qed.

Lemma plain_answer_is_the_reply_witness :
  log_interaction_chat Examples.validation_error Examples.greeting_llm 1
    Examples.greeting_session
  = (Response {| reply := "Hello!"; type := "text" |},
     [langchain_messages Examples.greeting_session]).
Proof.
  apply (plain_answer_is_the_reply Examples.validation_error Examples.greeting_llm 0
           Examples.greeting_session "Hello!").
  - discriminate.
  - reflexivity.
Defined.

(** X2.  When the first invocation of the language model raises,
    the endpoint answers 500 with the exception's text after "Error processing
    chat: "; no tool runs and the model is not invoked again. *)
Theorem llm_failure_is_a_500 :
  forall (validation_error : string -> args -> string)
         (llm : nat -> list BaseMessage -> outcome (string * list ToolCall))
         (limit : nat) (session_data : ChatSession) (e : string),
    strip (message session_data) <> EmptyString ->
    llm 0 (langchain_messages session_data) = Raise e ->
    log_interaction_chat validation_error llm (S limit) session_data
    = (HTTPException 500 ("Error processing chat: " ++ e)%string,
       [langchain_messages session_data]).
Proof.
  intros validation_error llm limit session_data e Hmsg Hllm.
  rewrite log_interaction_chat_not_blank by exact Hmsg.
  unfold app_graph. cbn [run_graph]. unfold step, call_llm_node.
  cbn [length messages]. rewrite Hllm. reflexivity.
Qed.

Lemma llm_failure_is_a_500_witness :
  log_interaction_chat Examples.validation_error Scenarios.failing_llm 25
    Examples.greeting_session
  = (HTTPException 500 "Error processing chat: connection error",
     [langchain_messages Examples.greeting_session]).
Proof.
  apply (llm_failure_is_a_500 Examples.validation_error Scenarios.failing_llm 24
           Examples.greeting_session "connection error").
  - discriminate.
  - reflexivity.
Defined.

Lemma log_tool_output (validation_error : string -> args -> string)
    (tool_call : ToolCall) :
  tool_name tool_call = "log_interaction_tool" ->
  well_typed (tool_args tool_call) = true ->
  tool_output_content validation_error tool_call
  = expected_draft (tool_args tool_call).
Proof.
  intros Hn Ht. unfold tool_output_content. rewrite Hn. cbn [String.eqb].
  change ("log_interaction_tool" =? "log_interaction_tool")%string with true.
  cbv iota zeta.
  rewrite invoke_log_interaction_tool_template, Ht. reflexivity.
Qed.

(** X3.  When the last tool call of the model's first answer asks
    [log_interaction_tool] for a draft, on arguments the tool accepts, and the
    drafted text holds neither "question" nor "clarify", the turn ends after
    this one invocation of the model and the endpoint answers with the draft,
    of type draft. *)
Theorem draft_request_is_answered_with_the_draft :
  forall (validation_error : string -> args -> string)
         (llm : nat -> list BaseMessage -> outcome (string * list ToolCall))
         (limit : nat) (session_data : ChatSession) (content : string)
         (tool_calls : list ToolCall) (tool_call : ToolCall),
    strip (message session_data) <> EmptyString ->
    llm 0 (langchain_messages session_data)
    = Return (content, tool_calls ++ [tool_call]) ->
    tool_name tool_call = "log_interaction_tool" ->
    well_typed (tool_args tool_call) = true ->
    question_marker (expected_draft (tool_args tool_call)) = false ->
    log_interaction_chat validation_error llm (S (S limit)) session_data
    = (Response {| reply := expected_draft (tool_args tool_call); type := "draft" |},
       [langchain_messages session_data]).
Proof.
  intros validation_error llm limit session_data content tool_calls tool_call
         Hmsg Hllm Hn Ht Hq.
  pose proof (log_tool_output validation_error tool_call Hn Ht) as Hout.
  rewrite (chat_tool_round validation_error llm limit session_data content
             tool_calls tool_call Hmsg Hllm) by (rewrite Hout; exact Hq).
  rewrite Hout, expected_draft_has_markers. reflexivity.
Qed.

Lemma draft_request_is_answered_with_the_draft_witness :
  log_interaction_chat Examples.validation_error Scenarios.drafting_llm 2
    Examples.greeting_session
  = (Response {| reply := expected_draft Examples.dr_lee; type := "draft" |},
     [langchain_messages Examples.greeting_session]).
Proof.
  apply (draft_request_is_answered_with_the_draft Examples.validation_error
           Scenarios.drafting_llm 0 Examples.greeting_session EmptyString []
           (mkToolCall "log_interaction_tool" Examples.dr_lee "call_1")).
  - discriminate.
  - reflexivity.
  - reflexivity.
  - reflexivity.
  - reflexivity.
Defined.

(** X6.  The clarifying-question tool returns its question
    unchanged.  When it is the last tool call of the model's first answer and
    the question itself holds neither "question" nor "clarify", the turn ends
    after this one invocation of the model and the endpoint answers with the
    question (of type text unless it holds the three draft markers). *)
Theorem plain_question_is_echoed_and_ends_the_turn :
  forall (validation_error : string -> args -> string)
         (llm : nat -> list BaseMessage -> outcome (string * list ToolCall))
         (limit : nat) (session_data : ChatSession) (content question : string)
         (tool_calls : list ToolCall) (tool_call : ToolCall),
    strip (message session_data) <> EmptyString ->
    llm 0 (langchain_messages session_data)
    = Return (content, tool_calls ++ [tool_call]) ->
    tool_name tool_call = "ask_clarifying_question_tool" ->
    dict_get "question" (tool_args tool_call) = Some (VStr question) ->
    question_marker question = false ->
    tool_output_content validation_error tool_call = question
    /\ log_interaction_chat validation_error llm (S (S limit)) session_data
       = (Response {| reply := question;
                      type := if draft_marker question then "draft" else "text" |},
          [langchain_messages session_data]).
Proof.
  intros validation_error llm limit session_data content question tool_calls tool_call
         Hmsg Hllm Hn Hget Hq.
  assert (Hout : tool_output_content validation_error tool_call = question).
  { unfold tool_output_content. rewrite Hn.
    change ("ask_clarifying_question_tool" =? "log_interaction_tool")%string with false.
    change ("ask_clarifying_question_tool" =? "ask_clarifying_question_tool")%string
      with true.
    cbv iota zeta. unfold invoke_ask_clarifying_question_tool, required_str.
    rewrite Hget. reflexivity. }
  split; [exact Hout|].
  rewrite (chat_tool_round validation_error llm limit session_data content
             tool_calls tool_call Hmsg Hllm) by (rewrite Hout; exact Hq).
  rewrite Hout. reflexivity.
Qed.

Lemma plain_question_is_echoed_and_ends_the_turn_witness :
  log_interaction_chat Examples.validation_error Scenarios.dating_llm 2
    Examples.greeting_session
  = (Response {| reply := "What date did the meeting occur?"; type := "text" |},
     [langchain_messages Examples.greeting_session]).
Proof.
  apply (plain_question_is_echoed_and_ends_the_turn Examples.validation_error
           Scenarios.dating_llm 0 Examples.greeting_session EmptyString
           "What date did the meeting occur?" []
           (mkToolCall "ask_clarifying_question_tool"
              [("question", VStr "What date did the meeting occur?")] "call_1")).
  - discriminate.
  - reflexivity.
  - reflexivity.
  - reflexivity.
  - reflexivity.
Defined.

(** ** The message list the endpoint builds *)

Lemma history_messages_facts (h : list ChatMessage) :
  length (history_messages h) = length (filter kept_sender h)
  /\ forallb plain (history_messages h) = true
  /\ map content_of (history_messages h) = map text (filter kept_sender h).
Proof.
  induction h as [|msg h (IH1 & IH2 & IH3)]; [repeat split|].
  cbn [history_messages filter].
  destruct (sender msg =? "user")%string eqn:Eu.
  - replace (kept_sender msg) with true by (unfold kept_sender; rewrite Eu; reflexivity).
    cbn [length forallb plain map content_of andb]. rewrite IH1, IH2, IH3. repeat split.
  - destruct (sender msg =? "ai")%string eqn:Ea.
    + replace (kept_sender msg) with true
        by (unfold kept_sender; rewrite Eu, Ea; reflexivity).
      cbn [length forallb plain map content_of andb]. rewrite IH1, IH2, IH3.
      repeat split.
    + replace (kept_sender msg) with false
        by (unfold kept_sender; rewrite Eu, Ea; reflexivity).
      repeat split; assumption.
Qed.

(** X12.  The message list handed to the graph starts with the
    system prompt and ends with the user's new message; between them stand
    the texts of the history entries whose sender is "user" or "ai", in
    order, entries of any other sender being dropped; and no message of the
    list carries tool calls or is a tool message. *)
Theorem built_messages_shape :
  forall session_data : ChatSession,
    langchain_messages session_data
    = SystemMessage system_prompt
        :: history_messages (history session_data)
        ++ [HumanMessage (message session_data)]
    /\ map content_of (langchain_messages session_data)
       = system_prompt
           :: map text (filter kept_sender (history session_data))
           ++ [message session_data]
    /\ length (langchain_messages session_data)
       = 2 + length (filter kept_sender (history session_data))
    /\ forallb plain (langchain_messages session_data) = true.
Proof.
  intros session_data.
  destruct (history_messages_facts (history session_data)) as (H1 & H2 & H3).
  unfold langchain_messages. cbn [app].
  split; [reflexivity|]. split; [|split].
  - cbn [map content_of]. rewrite map_app, H3. reflexivity.
  - cbn [length]. rewrite length_app, H1. cbn [length]. lia.
  - cbn [forallb plain andb]. rewrite forallb_app, H2. reflexivity.
Qed.

(** ** The tool node *)

(** X11.  The tool node raises on an empty message list and on no
    other.  On a list that is not empty it keeps every message it was given:
    its update is the given list followed by one tool message per tool call
    of the last message (none when the last message is not an assistant
    message with tool calls), in the order of the calls, each answering the
    identifier of its call. *)
Theorem tool_node_appends_one_answer_per_call :
  forall (validation_error : string -> args -> string) (state : AgentState),
    (messages state = [] ->
     exists e, call_tool_node validation_error state = Raise e)
    /\ (messages state <> [] ->
        exists answers,
          call_tool_node validation_error state = Return (messages state ++ answers)
          /\ map answered_id answers
             = map (fun c => Some (tool_call_id c)) (pending_calls (messages state))
          /\ map content_of answers
             = map (tool_output_content validation_error)
                 (pending_calls (messages state))).
Proof.
  intros validation_error state. split.
  - intros E. unfold call_tool_node. rewrite E. eexists. reflexivity.
  - intros Hne.
    destruct (messages state) as [|m ms] eqn:E; [congruence|].
    destruct (nonempty_snoc m ms) as (front & last_message & Hsplit).
    unfold call_tool_node, pending_calls. rewrite E, Hsplit, last_item_app, rev_unit.
    cbn [bind].
    destruct last_message as [c|c|c [|call calls]|c i];
      try (exists []; rewrite app_nil_r; repeat split; fail).
    exists (map (tool_output validation_error) (call :: calls)).
    split; [reflexivity|]. rewrite !map_map. split; reflexivity.
Qed.

Lemma tool_node_appends_one_answer_per_call_witness :
  exists answers,
    call_tool_node Examples.validation_error
      {| messages := [AIMessage EmptyString [Examples.clarify_call]] |}
    = Return ([AIMessage EmptyString [Examples.clarify_call]] ++ answers)
    /\ map answered_id answers = [Some "call_1"]
    /\ map content_of answers = ["Could you clarify the meeting date?"].
Proof.
  apply (proj2 (tool_node_appends_one_answer_per_call Examples.validation_error
                  {| messages := [AIMessage EmptyString [Examples.clarify_call]] |})).
  discriminate.
Defined.

(** ** Runs of the graph *)

Section RunFacts.
Variable validation_error : string -> args -> string.
Variable llm : nat -> list BaseMessage -> outcome (string * list ToolCall).

Lemma step_llm_node_raise (state : AgentState) (trace : llm_trace) (e : string) :
  llm (length trace) (messages state) = Raise e ->
  step validation_error llm Node_llm state trace = (Raise e, trace ++ [messages state]).
Proof.
  intros H. unfold step, call_llm_node. rewrite H. reflexivity.
Qed.

(** A run that returns ends on a plain assistant message or on a tool
    message, whether it starts at the language-model node or at the tool
    node behind an assistant message with tool calls. *)
Lemma run_graph_ends_terminal (limit : nat) :
  (forall state trace final trace',
      run_graph validation_error llm limit Node_llm state trace = (Return final, trace') ->
      ends_terminal final)
  /\ (forall front content calls last_call trace final trace',
         run_graph validation_error llm limit Node_tools
           {| messages := front ++ [AIMessage content (calls ++ [last_call])] |} trace
         = (Return final, trace') ->
         ends_terminal final).
Proof.
  induction limit as [|limit [IHllm IHtools]].
  - split; intros; discriminate.
  - split.
    + intros state trace final trace'. cbn [run_graph].
      destruct (llm (length trace) (messages state)) as [[content tool_calls]|e] eqn:E.
      * rewrite (step_llm_node validation_error llm state trace content tool_calls E).
        destruct tool_calls as [|tool_call tool_calls].
        -- rewrite run_graph_END. intros H. inversion H.
           exists [], (AIMessage content []). split; [reflexivity|].
           left. eexists. reflexivity.
        -- destruct (nonempty_snoc tool_call tool_calls) as (calls & last_call & Hs).
           rewrite Hs.
           replace (match calls ++ [last_call] with [] => Node_END | _ :: _ => Node_tools end)
             with Node_tools by (destruct calls; reflexivity).
           apply (IHtools [] content calls last_call).
      * rewrite (step_llm_node_raise state trace e E). discriminate.
    + intros front content calls last_call trace final trace'. cbn [run_graph].
      rewrite (step_tools_node validation_error llm front content calls last_call).
      destruct (question_marker (tool_output_content validation_error last_call)).
      * apply IHllm.
      * rewrite run_graph_END. intros H. inversion H. cbn [messages].
        rewrite map_app. cbn [map]. rewrite !app_assoc.
        eexists _, _. split; [reflexivity|]. right. eexists _, _. reflexivity.
Qed.

(** From the language-model node a run makes at most one invocation per two
    node executions, rounded up; from the tool node, rounded down. *)
Lemma run_graph_invocations (limit : nat) :
  forall at_node state trace,
    2 * length (snd (run_graph validation_error llm limit at_node state trace))
    <= 2 * length trace
       + match at_node with
         | Node_llm => limit + 1
         | Node_tools => limit
         | Node_END => 0
         end.
Proof.
  induction limit as [|limit IH]; intros at_node state trace.
  - destruct at_node; cbn; lia.
  - destruct at_node; cbn [run_graph]; [| |cbn; lia].
    + destruct (llm (length trace) (messages state)) as [[content tool_calls]|e] eqn:E.
      * rewrite (step_llm_node validation_error llm state trace content tool_calls E).
        destruct tool_calls as [|tool_call tool_calls].
        -- rewrite run_graph_END. cbn [snd]. rewrite length_app. cbn. lia.
        -- cbv beta iota.
           specialize (IH Node_tools
                          {| messages := [AIMessage content (tool_call :: tool_calls)] |}
                          (trace ++ [messages state])).
           rewrite length_app in IH. cbn [length] in IH.
           lia.
      * rewrite (step_llm_node_raise state trace e E). cbn [snd].
        rewrite length_app. cbn. lia.
    + pose proof (step_trace validation_error llm Node_tools state trace) as Hs.
      destruct (step validation_error llm Node_tools state trace)
        as [[[next state']|e] trace'] eqn:Estep; cbn [snd] in Hs;
        rewrite app_nil_r in Hs; subst trace'; [|cbn; lia].
      assert (Hnext : next = Node_llm \/ next = Node_END).
      { unfold step in Estep.
        destruct (call_tool_node validation_error state) as [update|?]; cbn in Estep;
          [|discriminate].
        destruct (should_continue_after_tool (write state update)) as [route|?];
          cbn in Estep; [|discriminate].
        unfold tools_edges in Estep.
        destruct (route =? "loop_to_llm")%string; [inversion Estep; auto|].
        destruct (route =? "end")%string; [inversion Estep; auto | discriminate]. }
      destruct Hnext as [-> | ->]; cbv beta iota.
      * specialize (IH Node_llm state' trace). cbv beta iota in IH. lia.
      * rewrite run_graph_END. cbn. lia.
Qed.

End RunFacts.

(** X13.  Whenever the endpoint answers with a reply, the graph
    run has returned, its last message is a plain assistant message or a
    tool message (never an assistant message still carrying tool calls, a
    user or a system message), the reply is that message's text, and the
    reported type is draft exactly when the reply holds the three draft
    markers, text otherwise. *)
Theorem reply_is_the_last_message :
  forall (validation_error : string -> args -> string)
         (llm : nat -> list BaseMessage -> outcome (string * list ToolCall))
         (limit : nat) (session_data : ChatSession) (response : ChatResponse)
         (trace : llm_trace),
    log_interaction_chat validation_error llm limit session_data
    = (Response response, trace) ->
    exists final front last_message,
      app_graph validation_error llm limit (langchain_messages session_data)
      = (Return final, trace)
      /\ messages final = front ++ [last_message]
      /\ terminal last_message
      /\ reply response = content_of last_message
      /\ type response = if draft_marker (reply response) then "draft" else "text".
Proof.
  intros validation_error llm limit session_data response trace H.
  destruct (string_dec (strip (message session_data)) EmptyString) as [Hb|Hb].
  - unfold log_interaction_chat in H. rewrite Hb in H. discriminate.
  - rewrite log_interaction_chat_not_blank in H by exact Hb.
    destruct (app_graph validation_error llm limit (langchain_messages session_data))
      as [[final|e] trace0] eqn:Erun; cbn [bind] in H; [|discriminate].
    destruct (proj1 (run_graph_ends_terminal validation_error llm limit) _ _ _ _ Erun)
      as (front & last_message & Hfinal & Hterminal).
    rewrite Hfinal, last_item_app in H. cbn [bind] in H.
    exists final, front, last_message.
    destruct Hterminal as [[content ->]|[content [tool_call_id ->]]];
      cbn [agent_response] in H.
    + inversion H. subst. repeat split; try assumption.
      * left. eexists. reflexivity.
    + assert (Hr : response
                   = {| reply := content;
                        type := if draft_marker content then "draft" else "text" |}
                   /\ trace0 = trace).
      { destruct (draft_marker content); [|destruct (question_marker content)];
          inversion H; split; reflexivity. }
      destruct Hr as [-> ->]. repeat split; try assumption.
      right. eexists _, _. reflexivity.
Qed.

Lemma reply_is_the_last_message_witness :
  exists final front last_message,
    app_graph Examples.validation_error Examples.greeting_llm 25
      (langchain_messages Examples.greeting_session)
    = (Return final, [langchain_messages Examples.greeting_session])
    /\ messages final = front ++ [last_message]
    /\ terminal last_message
    /\ "Hello!" = content_of last_message
    /\ "text" = if draft_marker "Hello!" then "draft" else "text".
Proof.
  apply (reply_is_the_last_message Examples.validation_error Examples.greeting_llm 25
           Examples.greeting_session {| reply := "Hello!"; type := "text" |}
           [langchain_messages Examples.greeting_session]).
  reflexivity.
Defined.

(** X14.  Whatever the language model and the message, a turn with
    a budget of [limit] node executions invokes the model at most
    [(limit + 1) / 2] times: twice the number of invocations is at most
    [limit + 1]. *)
Theorem model_invocations_are_bounded :
  forall (validation_error : string -> args -> string)
         (llm : nat -> list BaseMessage -> outcome (string * list ToolCall))
         (limit : nat) (session_data : ChatSession),
    2 * length (snd (log_interaction_chat validation_error llm limit session_data))
    <= limit + 1.
Proof.
  intros validation_error llm limit session_data.
  destruct (string_dec (strip (message session_data)) EmptyString) as [Hb|Hb].
  - unfold log_interaction_chat. rewrite Hb. cbn. lia.
  - rewrite log_interaction_chat_not_blank by exact Hb.
    pose proof (run_graph_invocations validation_error llm limit Node_llm
                  {| messages := langchain_messages session_data |} []) as Hn.
    unfold app_graph.
    destruct (run_graph validation_error llm limit Node_llm
                {| messages := langchain_messages session_data |} [])
      as [final trace].
    cbn [snd length] in Hn.
    destruct (let* final_state := final in
              let* agent_response_message := last_item (messages final_state) in
              agent_response validation_error agent_response_message)
      as [[reply_text response_type]|e]; cbn [snd]; lia.
Qed.

Section Exhaustion.
Variable validation_error : string -> args -> string.
Variable llm : nat -> list BaseMessage -> outcome (string * list ToolCall).
Hypothesis keeps_asking :
  forall n msgs,
    exists content calls last_call,
      llm n msgs = Return (content, calls ++ [last_call])
      /\ question_marker (tool_output_content validation_error last_call) = true.

Lemma run_graph_exhausts (limit : nat) :
  (forall state trace,
      exists e trace',
        run_graph validation_error llm limit Node_llm state trace = (Raise e, trace'))
  /\ (forall front content calls last_call trace,
         question_marker (tool_output_content validation_error last_call) = true ->
         exists e trace',
           run_graph validation_error llm limit Node_tools
             {| messages := front ++ [AIMessage content (calls ++ [last_call])] |} trace
           = (Raise e, trace')).
Proof.
  induction limit as [|limit [IHllm IHtools]].
  - split; intros; eexists _, _; reflexivity.
  - split.
    + intros state trace.
      destruct (keeps_asking (length trace) (messages state))
        as (content & calls & last_call & Hllm & Hq).
      cbn [run_graph].
      rewrite (step_llm_node validation_error llm state trace content
                 (calls ++ [last_call]) Hllm).
      replace (match calls ++ [last_call] with [] => Node_END | _ :: _ => Node_tools end)
        with Node_tools by (destruct calls; reflexivity).
      apply (IHtools [] content calls last_call _ Hq).
    + intros front content calls last_call trace Hq. cbn [run_graph].
      rewrite (step_tools_node validation_error llm front content calls last_call).
      rewrite Hq. apply IHllm.
Qed.

End Exhaustion.

(** X15.  The loop has no bound of its own: against a language
    model whose every answer ends with a tool call whose output holds
    "question" or "clarify", no budget of node executions lets the run reach
    the end; the run raises and the endpoint answers 500. *)
Theorem asking_forever_exhausts_every_budget :
  forall (validation_error : string -> args -> string)
         (llm : nat -> list BaseMessage -> outcome (string * list ToolCall))
         (limit : nat) (session_data : ChatSession),
    strip (message session_data) <> EmptyString ->
    (forall n msgs,
        exists content calls last_call,
          llm n msgs = Return (content, calls ++ [last_call])
          /\ question_marker (tool_output_content validation_error last_call) = true) ->
    exists e trace,
      app_graph validation_error llm limit (langchain_messages session_data)
      = (Raise e, trace)
      /\ log_interaction_chat validation_error llm limit session_data
         = (HTTPException 500 ("Error processing chat: " ++ e)%string, trace).
Proof.
  intros validation_error llm limit session_data Hmsg Hask.
  destruct (proj1 (run_graph_exhausts validation_error llm Hask limit)
              {| messages := langchain_messages session_data |} [])
    as (e & trace & Hrun).
  exists e, trace. split; [exact Hrun|].
  rewrite log_interaction_chat_not_blank by exact Hmsg.
  unfold app_graph. rewrite Hrun. reflexivity.
Qed.

Lemma asking_forever_exhausts_every_budget_witness :
  exists e trace,
    app_graph Examples.validation_error Scenarios.insisting_llm 25
      (langchain_messages Examples.greeting_session)
    = (Raise e, trace)
    /\ log_interaction_chat Examples.validation_error Scenarios.insisting_llm 25
         Examples.greeting_session
       = (HTTPException 500 ("Error processing chat: " ++ e)%string, trace).
Proof.
  apply (asking_forever_exhausts_every_budget Examples.validation_error
           Scenarios.insisting_llm 25 Examples.greeting_session).
  - discriminate.
  - intros n msgs. exists EmptyString, [], Examples.clarify_call. split; reflexivity.
Defined.

(** ** What the parsers accept *)

Lemma first_match_some {A B : Type} (l : list A) (k : A -> option B) (b : B) :
  first_match l k = Some b -> exists x, In x l /\ k x = Some b.
Proof.
  induction l as [|x l IH]; cbn; [discriminate|].
  destruct (k x) as [b'|] eqn:E.
  - intros H. inversion H. subst. exists x. auto.
  - intros H. destruct (IH H) as (y & Hy & Hk). exists y. auto.
Qed.

Lemma matches_one (p : ascii -> bool) (s : string) (x : string * string) :
  In x (matches (Chr p) s) ->
  exists c, p c = true /\ x = (String c EmptyString, snd x) /\ s = String c (snd x).
Proof.
  destruct s as [|c s]; cbn; [contradiction|].
  destruct (p c) eqn:E; cbn; [|contradiction].
  intros [<-|[]]. exists c. auto.
Qed.

Lemma matches_two (p q : ascii -> bool) (s : string) (x : string * string) :
  In x (matches (Seq (Chr p) (Chr q)) s) ->
  exists c1 c2,
    p c1 = true /\ q c2 = true /\ fst x = String c1 (String c2 EmptyString).
Proof.
  cbn [matches]. rewrite in_flat_map. intros (m1 & H1 & H2).
  apply in_map_iff in H2. destruct H2 as (m2 & <- & H2).
  apply matches_one in H1. destruct H1 as (c1 & Hp & E1 & _).
  apply matches_one in H2. destruct H2 as (c2 & Hq & E2 & _).
  exists c1, c2. rewrite E1, E2. cbn. auto.
Qed.

Section Accepted.
Local Open Scope Z_scope.

Ltac char_codes :=
  repeat match goal with
         | H : context [nat_of_ascii (Ascii ?a ?b ?c ?d ?e ?f ?g ?h)] |- _ =>
             let v := eval vm_compute in (nat_of_ascii (Ascii a b c d e f g h)) in
             change (nat_of_ascii (Ascii a b c d e f g h)) with v in H
         | |- context [nat_of_ascii (Ascii ?a ?b ?c ?d ?e ?f ?g ?h)] =>
             let v := eval vm_compute in (nat_of_ascii (Ascii a b c d e f g h)) in
             change (nat_of_ascii (Ascii a b c d e f g h)) with v
         end.

(** The decimal value of a character between two digits. *)
Lemma value_between (lo hi c : ascii) :
  (48 <= nat_of_ascii lo)%nat -> (nat_of_ascii hi <= 57)%nat ->
  between lo hi c = true ->
  is_digit c = true
  /\ Z.of_nat (nat_of_ascii lo) - 48 <= Z.of_nat (nat_of_ascii c) - 48
     <= Z.of_nat (nat_of_ascii hi) - 48.
Proof.
  unfold between, is_digit. intros Hlo Hhi H.
  apply andb_prop in H. destruct H as [H1 H2].
  apply Nat.leb_le in H1, H2. split; [|lia].
  apply andb_true_intro. split; apply Nat.leb_le; lia.
Qed.

Lemma value_digit (c : ascii) :
  is_digit c = true -> 0 <= Z.of_nat (nat_of_ascii c) - 48 <= 9.
Proof.
  unfold is_digit. intros H. apply andb_prop in H. destruct H as [H1 H2].
  apply Nat.leb_le in H1, H2. lia.
Qed.

Lemma value_lit (a c : ascii) : Ascii.eqb a c = true -> c = a.
Proof.
  intros H. apply Ascii.eqb_eq in H. congruence.
Qed.

Lemma to_int_pair (c1 c2 : ascii) :
  is_digit c1 = true -> is_digit c2 = true ->
  to_int (String c1 (String c2 EmptyString))
  = 10 * (Z.of_nat (nat_of_ascii c1) - 48) + (Z.of_nat (nat_of_ascii c2) - 48).
Proof.
  intros H1 H2. unfold to_int. cbn [list_ascii_of_string fold_left].
  rewrite H1, H2. lia.
Qed.

Lemma to_int_single (c : ascii) :
  is_digit c = true ->
  to_int (String c EmptyString) = Z.of_nat (nat_of_ascii c) - 48.
Proof.
  intros H. unfold to_int. cbn [list_ascii_of_string fold_left]. rewrite H. lia.
Qed.

(** Every text the hour directive matches is an hour of the day. *)
Lemma matches_re_H_bound (s : string) (x : string * string) :
  In x (matches re_H s) -> 0 <= to_int (fst x) <= 23.
Proof.
  unfold re_H. cbn [matches]. rewrite !in_app_iff. intros [H|[H|H]].
  - apply matches_two in H. destruct H as (c1 & c2 & H1 & H2 & ->).
    apply value_lit in H1. subst c1.
    apply value_between in H2; [|char_codes; lia|char_codes; lia]. destruct H2 as [D2 V2].
    rewrite to_int_pair by (reflexivity || assumption). char_codes. lia.
  - apply matches_two in H. destruct H as (c1 & c2 & H1 & H2 & ->).
    apply value_between in H1; [|char_codes; lia|char_codes; lia]. destruct H1 as [D1 V1].
    pose proof (value_digit c2 H2) as V2.
    rewrite to_int_pair by assumption. char_codes. lia.
  - apply matches_one in H. destruct H as (c & Hc & -> & _).
    pose proof (value_digit c Hc) as V. cbn [fst].
    rewrite to_int_single by assumption. lia.
Qed.

(** Every text the minute directive matches is a minute of the hour. *)
Lemma matches_re_M_bound (s : string) (x : string * string) :
  In x (matches re_M s) -> 0 <= to_int (fst x) <= 59.
Proof.
  unfold re_M. cbn [matches]. rewrite !in_app_iff. intros [H|H].
  - apply matches_two in H. destruct H as (c1 & c2 & H1 & H2 & ->).
    apply value_between in H1; [|char_codes; lia|char_codes; lia]. destruct H1 as [D1 V1].
    pose proof (value_digit c2 H2) as V2.
    rewrite to_int_pair by assumption. char_codes. lia.
  - apply matches_one in H. destruct H as (c & Hc & -> & _).
    pose proof (value_digit c Hc) as V. cbn [fst].
    rewrite to_int_single by assumption. lia.
Qed.

Lemma strptime_time_valid (s : string) (t : time) :
  strptime_time s = Some t ->
  valid_time t = true /\ second t = 0 /\ microsecond t = 0.
Proof.
  unfold strptime_time.
  destruct (first_match (matches re_H s) _) as [[[h m] rest]|] eqn:E; [|discriminate].
  destruct rest; [|discriminate]. intros H. inversion H. subst t. clear H.
  apply first_match_some in E. destruct E as (xh & Hh & E).
  apply first_match_some in E. destruct E as (xs & _ & E).
  apply first_match_some in E. destruct E as (xm & Hm & E).
  inversion E. subst.
  pose proof (matches_re_H_bound _ _ Hh) as Bh.
  pose proof (matches_re_M_bound _ _ Hm) as Bm.
  split; [|split; reflexivity].
  unfold valid_time. cbn [hour minute second microsecond].
  repeat (apply andb_true_intro; split);
    first [apply Z.leb_le; lia | apply Z.ltb_lt; lia].
Qed.

Lemma strptime_date_valid (s : string) (d : date) :
  strptime_date s = Some d -> valid_date d = true.
Proof.
  unfold strptime_date.
  destruct (first_match (matches re_d s) _) as [[[[dd mm] yy] rest]|]; [|discriminate].
  destruct rest; [|discriminate].
  destruct (valid_date _) eqn:E; [|discriminate].
  intros H. inversion H. subst. exact E.
Qed.

End Accepted.

Lemma parse_interaction_date_some (v : option value) (d : date) :
  parse_interaction_date v = Response (Some d) ->
  exists s, v = Some (VStr s) /\ s <> EmptyString /\ strptime_date (strip s) = Some d.
Proof.
  destruct v as [[|s|[|x l]]|]; try (cbn; discriminate).
  destruct s as [|c s]; [cbn; discriminate|].
  rewrite parse_interaction_date_text.
  destruct (strptime_date (strip (String c s))) as [d'|] eqn:E; [|discriminate].
  intros H. inversion H. subst. exists (String c s).
  split; [reflexivity|]. split; [discriminate | exact E].
Qed.

Lemma parse_interaction_time_some (v : option value) (t : time) :
  parse_interaction_time v = Response (Some t) ->
  exists s, v = Some (VStr s) /\ s <> EmptyString /\ strptime_time (strip s) = Some t.
Proof.
  destruct v as [[|s|[|x l]]|]; try (cbn; discriminate).
  destruct s as [|c s]; [cbn; discriminate|].
  rewrite parse_interaction_time_text.
  destruct (strptime_time (strip (String c s))) as [t'|] eqn:E; [|discriminate].
  intros H. inversion H. subst. exists (String c s).
  split; [reflexivity|]. split; [discriminate | exact E].
Qed.

(** X16.  Whatever is submitted, a date the pre-parsing of the
    confirmation path accepts is a valid calendar date, and a time it accepts
    is a valid time of day with no seconds and no microseconds.  An accepted
    time is a fixed point of rendering and parsing again, and so is an
    accepted date from the year 1000 on (an earlier year is accepted on four
    digits and rendered on fewer). *)
Theorem accepted_dates_and_times_are_valid :
  forall (date_str time_str : option value) (d : date) (t : time),
    (parse_interaction_date date_str = Response (Some d) ->
     valid_date d = true
     /\ ((1000 <= year d)%Z ->
         parse_interaction_date (Some (VStr (strftime_date d))) = Response (Some d)))
    /\ (parse_interaction_time time_str = Response (Some t) ->
        valid_time t = true /\ second t = 0%Z /\ microsecond t = 0%Z
        /\ parse_interaction_time (Some (VStr (strftime_time t))) = Response (Some t)).
Proof.
  intros date_str time_str d t. split; intros H.
  - apply parse_interaction_date_some in H. destruct H as (s & _ & _ & H).
    apply strptime_date_valid in H. split; [exact H|]. intros Hy.
    pose proof (strip_strftime_date d H) as Hstrip.
    pose proof (strptime_strftime_date d H Hy) as Hparse.
    unfold strftime_date, two_digits in *. cbn [append] in *.
    rewrite parse_interaction_date_text, Hstrip, Hparse. reflexivity.
  - apply parse_interaction_time_some in H. destruct H as (s & _ & _ & H).
    apply strptime_time_valid in H. destruct H as (Hv & Hs & Hus).
    repeat split; try assumption.
    pose proof (strip_strftime_time t Hv) as Hstrip.
    pose proof (strptime_strftime_time t Hv) as Hparse.
    unfold strftime_time, two_digits in *. cbn [append] in *.
    rewrite parse_interaction_time_text, Hstrip, Hparse.
    destruct t as [h m sec us]. cbn [hour minute second microsecond] in *.
    subst. reflexivity.
Qed.

Lemma accepted_dates_and_times_are_valid_witness :
  valid_date (mkDate 2024 6 1) = true
  /\ parse_interaction_date (Some (VStr (strftime_date (mkDate 2024 6 1))))
     = Response (Some (mkDate 2024 6 1)).
Proof.
  destruct (proj1 (accepted_dates_and_times_are_valid (Some (VStr " 1-6-2024 ")) None
                     (mkDate 2024 6 1) (mkTime 0 0 0 0)) eq_refl)
    as [Hvalid Hfixed].
  split; [exact Hvalid | apply Hfixed; cbn; lia].
Defined.

(** X17.  The two display formats lose nothing on the values they
    are meant for: two valid dates with the same DD-MM-YYYY text are the same
    date, and two valid times of day without seconds with the same HH:MM text
    are the same time. *)
Theorem display_formats_are_injective :
  forall (d1 d2 : date) (t1 t2 : time),
    (valid_date d1 = true -> valid_date d2 = true ->
     strftime_date d1 = strftime_date d2 -> d1 = d2)
    /\ (valid_time t1 = true -> valid_time t2 = true ->
        second t1 = 0%Z -> microsecond t1 = 0%Z ->
        second t2 = 0%Z -> microsecond t2 = 0%Z ->
        strftime_time t1 = strftime_time t2 -> t1 = t2).
Proof.
  intros d1 d2 t1 t2. split.
  - apply strftime_date_injective.
  - intros H1 H2 S1 U1 S2 U2 E.
    pose proof (strptime_strftime_time t1 H1) as P1.
    pose proof (strptime_strftime_time t2 H2) as P2.
    rewrite E in P1. rewrite P1 in P2. inversion P2 as [[Hh Hm]].
    destruct t1, t2. cbn in *. subst. reflexivity.
Qed.

Lemma display_formats_are_injective_witness :
  mkDate 999 12 3 = mkDate 999 12 3.
Proof.
  apply (proj1 (display_formats_are_injective (mkDate 999 12 3) (mkDate 999 12 3)
                  (mkTime 0 0 0 0) (mkTime 0 0 0 0)));
    reflexivity.
Defined.

(** ** The table across the confirmation, form and listing paths *)

(** The row [db_add] stores for a form. *)
Lemma db_add_row (db : list InteractionLogDB.t) (f : HCPInteractionForm.t) :
  exists row,
    db_add db f = (db ++ [row], S (length db))
    /\ InteractionLogDB.id row = S (length db)
    /\ InteractionLogDB.hcpName row = HCPInteractionForm.hcpName f
    /\ InteractionLogDB.interactionDate row = HCPInteractionForm.interactionDate f
    /\ InteractionLogDB.interactionTime row = HCPInteractionForm.interactionTime f
    /\ InteractionLogDB.interactionType row = HCPInteractionForm.interactionType f
    /\ InteractionLogDB.topicsDiscussed row = HCPInteractionForm.topicsDiscussed f
    /\ InteractionLogDB.hcpSentiment row = HCPInteractionForm.hcpSentiment f
    /\ InteractionLogDB.outcomes row = HCPInteractionForm.outcomes f
    /\ InteractionLogDB.followUpActions row = HCPInteractionForm.followUpActions f.
Proof.
  eexists. unfold db_add. repeat split.
Qed.

(** What a validated form holds. *)
Lemma validate_form_fields (draft_data : args) (interaction_date_obj : option date)
    (interaction_time_obj : option time) (hcp_sentiment : option string)
    (f : HCPInteractionForm.t) :
  validate_form draft_data interaction_date_obj interaction_time_obj hcp_sentiment
  = Some f ->
  interaction_date_obj = Some (HCPInteractionForm.interactionDate f)
  /\ HCPInteractionForm.interactionTime f = interaction_time_obj
  /\ HCPInteractionForm.hcpSentiment f = hcp_sentiment
  /\ 1 <= String.length (HCPInteractionForm.hcpName f) <= 100
  /\ 1 <= String.length (HCPInteractionForm.topicsDiscussed f)
  /\ String.length (HCPInteractionForm.outcomes f) <= 500
  /\ String.length (HCPInteractionForm.followUpActions f) <= 500
  /\ mem (HCPInteractionForm.interactionType f)
       ["Meeting"; "Call"; "Email"; "Conference"; "Other"; EmptyString] = true.
Proof.
  unfold validate_form, interaction_type.
  destruct (str_or_empty "hcpName" draft_data) as [name|]; [|discriminate].
  destruct interaction_date_obj as [d|]; [|discriminate].
  destruct (dict_get "interactionType" draft_data) as [[|ty|l]|];
    try discriminate.
  - destruct (mem ty ["Meeting"; "Call"; "Email"; "Conference"; "Other"; EmptyString])
      eqn:Ety; [|discriminate].
    repeat match goal with
           | |- context [match ?x with _ => _ end] => destruct x eqn:?; try discriminate
           end.
    intros H. inversion H. subst. cbn.
    unfold length_between in *.
    repeat match goal with
           | H : (_ && _)%bool = true |- _ => apply andb_prop in H; destruct H
           end.
    repeat match goal with
           | H : Nat.leb _ _ = true |- _ => apply Nat.leb_le in H
           end.
    repeat split; try assumption; try lia.
  - repeat match goal with
           | |- context [match ?x with _ => _ end] => destruct x eqn:?; try discriminate
           end.
    intros H. inversion H. subst. cbn.
    unfold length_between in *.
    repeat match goal with
           | H : (_ && _)%bool = true |- _ => apply andb_prop in H; destruct H
           end.
    repeat match goal with
           | H : Nat.leb _ _ = true |- _ => apply Nat.leb_le in H
           end.
    repeat split; try assumption; try lia.
Qed.

Lemma check_sentiment_some (o sentiment : option string) :
  check_sentiment o = Response sentiment ->
  sentiment = o /\ sentiment_allowed sentiment = true.
Proof.
  unfold check_sentiment. destruct (sentiment_allowed o) eqn:E; [|discriminate].
  intros H. inversion H. subst. auto.
Qed.

Lemma normalize_sentiment_allowed (s : string) :
  sentiment_allowed (normalize_sentiment s) = true ->
  normalize_sentiment s = None
  \/ normalize_sentiment s = Some "Positive"
  \/ normalize_sentiment s = Some "Neutral"
  \/ normalize_sentiment s = Some "Negative".
Proof.
  unfold normalize_sentiment.
  destruct ((s =? "N/A") || (s =? EmptyString))%string; [auto|].
  unfold sentiment_allowed, mem. cbn [existsb]. intros H.
  repeat (apply orb_prop in H; destruct H as [H|H]); try discriminate;
    apply String.eqb_eq in H; subst; auto.
Qed.

Section ConfirmFacts.
Variable errors : args -> string.

(** The stages a confirmed draft went through. *)
Lemma confirm_success (draft_data : args) (db db' : list InteractionLogDB.t)
    (confirmation : LogConfirmation.t) :
  confirm_chat_interaction_log errors draft_data db = (Response confirmation, db') ->
  exists s d interaction_time_obj f,
    stripped_sentiment draft_data = Response s
    /\ sentiment_allowed (normalize_sentiment s) = true
    /\ parse_interaction_date (dict_get "interactionDate" draft_data)
       = Response (Some d)
    /\ parse_interaction_time (dict_get "interactionTime" draft_data)
       = Response interaction_time_obj
    /\ validate_form draft_data (Some d) interaction_time_obj (normalize_sentiment s)
       = Some f
    /\ (db', LogConfirmation.log_id confirmation) = db_add db f
    /\ LogConfirmation.message confirmation = "Log confirmed and saved successfully!".
Proof.
  unfold confirm_chat_interaction_log.
  destruct (stripped_sentiment draft_data) as [s|c0 d0]; cbn [http_bind];
    [|intros H; inversion H].
  destruct (check_sentiment (normalize_sentiment s)) as [sentiment|c0 d0] eqn:Hc;
    cbn [http_bind]; [|intros H; inversion H].
  apply check_sentiment_some in Hc. destruct Hc as [-> Hallowed].
  destruct (parse_interaction_date (dict_get "interactionDate" draft_data))
    as [interaction_date_obj|c0 d0]; cbn [http_bind]; [|intros H; inversion H].
  destruct (parse_interaction_time (dict_get "interactionTime" draft_data))
    as [interaction_time_obj|c0 d0]; cbn [http_bind]; [|intros H; inversion H].
  destruct (validate_form draft_data interaction_date_obj interaction_time_obj
              (normalize_sentiment s)) as [f|] eqn:Hv; [|intros H; inversion H].
  pose proof (validate_form_fields _ _ _ _ _ Hv) as (Hd & _).
  subst interaction_date_obj.
  destruct (db_add db f) as [db'' new_id] eqn:Hadd.
  intros H. inversion H. subst.
  exists s, (HCPInteractionForm.interactionDate f), interaction_time_obj, f.
  repeat split; try assumption. cbn. symmetry. exact Hadd.
Qed.

End ConfirmFacts.

(** A confirmation that fails leaves the table as it was. *)
Lemma confirm_failure_keeps_table (errors : args -> string) (draft_data : args)
    (db db' : list InteractionLogDB.t) (status_code : nat) (detail : string) :
  confirm_chat_interaction_log errors draft_data db
  = (HTTPException status_code detail, db') ->
  db' = db.
Proof.
  unfold confirm_chat_interaction_log.
  match goal with
  | |- context [match ?checked with Response _ => _ | HTTPException _ _ => _ end] =>
      destruct checked as [parsed_data|c d]
  end.
  - destruct (db_add db parsed_data). discriminate.
  - intros H. inversion H. reflexivity.
Qed.

(** X18.  A confirmation either fails and leaves the table as it was, or
    succeeds and appends exactly one row: the row and the response carry the
    next identifier of the table, and the response carries the fixed success
    message. *)
Theorem confirmation_appends_one_row_or_nothing :
  forall (errors : args -> string) (draft_data : args) (db : list InteractionLogDB.t),
    match confirm_chat_interaction_log errors draft_data db with
    | (HTTPException status_code detail, db') =>
        db' = db /\ (status_code = 400 \/ status_code = 500)
    | (Response confirmation, db') =>
        exists row,
          db' = db ++ [row]
          /\ InteractionLogDB.id row = S (length db)
          /\ LogConfirmation.log_id confirmation = S (length db)
          /\ LogConfirmation.message confirmation
             = "Log confirmed and saved successfully!"
    end.
Proof.
  intros errors draft_data db.
  destruct (confirm_chat_interaction_log errors draft_data db)
    as [[confirmation|status_code detail] db'] eqn:E.
  - apply confirm_success in E.
    destruct E as (s & d & t & f & _ & _ & _ & _ & _ & Hadd & Hmsg).
    destruct (db_add_row db f) as (row & Hrow & Hid & _).
    rewrite Hrow in Hadd. injection Hadd as Hdb Hlog. exists row.
    repeat split; assumption.
  - unfold confirm_chat_interaction_log in E.
    repeat match type of E with
           | context [http_bind ?m _] =>
               let c := fresh "c" in
               let d := fresh "d" in
               destruct m as [?|c d] eqn:?; cbn [http_bind] in E;
               [|inversion E; subst]
           end.
    all: try match type of E with
             | context [validate_form ?a ?b ?c ?d] =>
                 destruct (validate_form a b c d); [destruct (db_add db _)|];
                 inversion E; subst; auto
             end.
    all: repeat match goal with
                | H : stripped_sentiment _ = HTTPException _ _ |- _ =>
                    unfold stripped_sentiment, internal_server_error in H;
                    destruct (dict_get "hcpSentiment" draft_data) as [[| |]|];
                    inversion H; auto
                | H : check_sentiment _ = HTTPException _ _ |- _ =>
                    unfold check_sentiment in H;
                    destruct (sentiment_allowed _); inversion H; auto
                | H : parse_interaction_date ?v = HTTPException _ _ |- _ =>
                    unfold parse_interaction_date, internal_server_error in H;
                    destruct v as [[|[|? ?]|[|? ?]]|];
                    try destruct (strptime_date _); inversion H; auto
                | H : parse_interaction_time ?v = HTTPException _ _ |- _ =>
                    unfold parse_interaction_time, internal_server_error in H;
                    destruct v as [[|[|? ?]|[|? ?]]|];
                    try destruct (strptime_time _); inversion H; auto
                end.
Qed.

(** X19.  Every row the confirmation path stores respects the
    limits of the form: a name of 1 to 100 characters, topics that are not
    empty, outcomes and follow-up actions of at most 500 characters, an
    interaction type among the six literals, a sentiment that is null,
    Positive, Neutral or Negative (never empty or N/A), a valid calendar date
    and, when a time is stored, a valid time of day without seconds. *)
Theorem stored_rows_respect_the_form :
  forall (errors : args -> string) (draft_data : args)
         (db db' : list InteractionLogDB.t) (confirmation : LogConfirmation.t),
    confirm_chat_interaction_log errors draft_data db = (Response confirmation, db') ->
    exists row,
      db' = db ++ [row]
      /\ 1 <= String.length (InteractionLogDB.hcpName row) <= 100
      /\ 1 <= String.length (InteractionLogDB.topicsDiscussed row)
      /\ String.length (InteractionLogDB.outcomes row) <= 500
      /\ String.length (InteractionLogDB.followUpActions row) <= 500
      /\ mem (InteractionLogDB.interactionType row)
           ["Meeting"; "Call"; "Email"; "Conference"; "Other"; EmptyString] = true
      /\ (InteractionLogDB.hcpSentiment row = None
          \/ InteractionLogDB.hcpSentiment row = Some "Positive"
          \/ InteractionLogDB.hcpSentiment row = Some "Neutral"
          \/ InteractionLogDB.hcpSentiment row = Some "Negative")
      /\ valid_date (InteractionLogDB.interactionDate row) = true
      /\ (forall t, InteractionLogDB.interactionTime row = Some t ->
                    valid_time t = true /\ second t = 0%Z /\ microsecond t = 0%Z).
Proof.
  intros errors draft_data db db' confirmation H.
  apply confirm_success in H.
  destruct H as (s & d & tm & f & _ & Hallowed & Hdate & Htime & Hv & Hadd & _).
  apply validate_form_fields in Hv.
  destruct Hv as (Hd & Ht & Hs & Hname & Htopics & Hout & Hfol & Hty).
  destruct (db_add_row db f)
    as (row & Hrow & _ & Rname & Rdate & Rtime & Rtype & Rtopics & Rsent & Rout & Rfol).
  rewrite Hrow in Hadd. injection Hadd as Hdb _. exists row.
  rewrite Rname, Rdate, Rtime, Rtype, Rtopics, Rsent, Rout, Rfol, Hs. subst tm.
  injection Hd as Hd. subst d.
  repeat split; try assumption; try lia.
  - apply normalize_sentiment_allowed, Hallowed.
  - apply parse_interaction_date_some in Hdate. destruct Hdate as (x & _ & _ & Hp).
    apply strptime_date_valid in Hp. exact Hp.
  - match goal with E : HCPInteractionForm.interactionTime f = Some _ |- _ =>
      rewrite E in Htime end.
    apply parse_interaction_time_some in Htime.
    destruct Htime as (x & _ & _ & Hp). apply strptime_time_valid in Hp. apply Hp.
  - match goal with E : HCPInteractionForm.interactionTime f = Some _ |- _ =>
      rewrite E in Htime end.
    apply parse_interaction_time_some in Htime.
    destruct Htime as (x & _ & _ & Hp). apply strptime_time_valid in Hp. apply Hp.
  - match goal with E : HCPInteractionForm.interactionTime f = Some _ |- _ =>
      rewrite E in Htime end.
    apply parse_interaction_time_some in Htime.
    destruct Htime as (x & _ & _ & Hp). apply strptime_time_valid in Hp. apply Hp.
Qed.

Lemma stored_rows_respect_the_form_witness :
  exists row,
    [ InteractionLogDB.mk 1 "Dr. Lee" (mkDate 2024 6 1) (Some (mkTime 10 30 0 0))
        "Meeting" [] "Drug X efficacy" [] [] (Some "Positive")
        EmptyString EmptyString ] = [] ++ [row]
    /\ 1 <= String.length (InteractionLogDB.hcpName row) <= 100
    /\ 1 <= String.length (InteractionLogDB.topicsDiscussed row)
    /\ String.length (InteractionLogDB.outcomes row) <= 500
    /\ String.length (InteractionLogDB.followUpActions row) <= 500
    /\ mem (InteractionLogDB.interactionType row)
         ["Meeting"; "Call"; "Email"; "Conference"; "Other"; EmptyString] = true
    /\ (InteractionLogDB.hcpSentiment row = None
        \/ InteractionLogDB.hcpSentiment row = Some "Positive"
        \/ InteractionLogDB.hcpSentiment row = Some "Neutral"
        \/ InteractionLogDB.hcpSentiment row = Some "Negative")
    /\ valid_date (InteractionLogDB.interactionDate row) = true
    /\ (forall t, InteractionLogDB.interactionTime row = Some t ->
                  valid_time t = true /\ second t = 0%Z /\ microsecond t = 0%Z).
Proof.
  apply (stored_rows_respect_the_form Examples.errors Examples.padded_draft []
           _ (LogConfirmation.mk "Log confirmed and saved successfully!" 1)).
  reflexivity.
Defined.

(** X20.  A draft whose interactionDate is missing, null or empty is
    never stored: whatever its other fields, the confirmation answers with an
    error and leaves the table as it was. *)
Theorem undated_draft_is_never_stored :
  forall (errors : args -> string) (draft_data : args) (db : list InteractionLogDB.t),
    dict_get "interactionDate" draft_data = None
    \/ dict_get "interactionDate" draft_data = Some VNone
    \/ dict_get "interactionDate" draft_data = Some (VStr EmptyString) ->
    exists status_code detail,
      confirm_chat_interaction_log errors draft_data db
      = (HTTPException status_code detail, db).
Proof.
  intros errors draft_data db Hd.
  destruct (confirm_chat_interaction_log errors draft_data db)
    as [[confirmation|status_code detail] db'] eqn:E.
  - apply confirm_success in E.
    destruct E as (s & d & tm & f & _ & _ & Hdate & _).
    destruct Hd as [Hd|[Hd|Hd]]; rewrite Hd in Hdate; discriminate.
  - apply confirm_failure_keeps_table in E as Hdb. subst db'.
    eexists _, _. reflexivity.
Qed.

Lemma undated_draft_is_never_stored_witness :
  exists status_code detail,
    confirm_chat_interaction_log Examples.errors Scenarios.undated_draft []
    = (HTTPException status_code detail, []).
Proof.
  apply (undated_draft_is_never_stored Examples.errors Scenarios.undated_draft []).
  left. reflexivity.
Defined.

Lemma parse_strftime_date (d : date) :
  valid_date d = true -> (1000 <= year d)%Z ->
  parse_interaction_date (Some (VStr (strftime_date d))) = Response (Some d).
Proof.
  intros H Hy.
  pose proof (strip_strftime_date d H) as Hstrip.
  pose proof (strptime_strftime_date d H Hy) as Hparse.
  unfold strftime_date, two_digits in *. cbn [append] in *.
  rewrite parse_interaction_date_text, Hstrip, Hparse. reflexivity.
Qed.

Lemma parse_strftime_time (t : time) :
  valid_time t = true -> second t = 0%Z -> microsecond t = 0%Z ->
  parse_interaction_time (Some (VStr (strftime_time t))) = Response (Some t).
Proof.
  intros H Hs Hus.
  pose proof (strip_strftime_time t H) as Hstrip.
  pose proof (strptime_strftime_time t H) as Hparse.
  unfold strftime_time, two_digits in *. cbn [append] in *.
  rewrite parse_interaction_time_text, Hstrip, Hparse.
  destruct t as [h m sec us]. cbn [hour minute second microsecond] in *.
  subst. reflexivity.
Qed.

(** X21.  A stored interaction comes back from the listing as it was
    confirmed: when a draft whose interactionDate is the DD-MM-YYYY text of a
    valid date from the year 1000 on and whose interactionTime is the HH:MM
    text of a valid time is confirmed, the listing of the new table is the
    old listing followed by one entry, which carries the identifier of the
    confirmation and shows exactly those two texts. *)
Theorem confirmed_draft_is_listed_as_submitted :
  forall (errors : args -> string) (draft_data : args)
         (db db' : list InteractionLogDB.t) (confirmation : LogConfirmation.t)
         (d : date) (t : time),
    dict_get "interactionDate" draft_data = Some (VStr (strftime_date d)) ->
    valid_date d = true -> (1000 <= year d)%Z ->
    dict_get "interactionTime" draft_data = Some (VStr (strftime_time t)) ->
    valid_time t = true -> second t = 0%Z -> microsecond t = 0%Z ->
    confirm_chat_interaction_log errors draft_data db = (Response confirmation, db') ->
    exists entry,
      get_all_logs db' = get_all_logs db ++ [entry]
      /\ HCPLogResponse.id entry = LogConfirmation.log_id confirmation
      /\ HCPLogResponse.interactionDate entry = strftime_date d
      /\ HCPLogResponse.interactionTime entry = Some (strftime_time t).
Proof.
  intros errors draft_data db db' confirmation d t Hd Hvd Hy Ht Hvt Hs Hus H.
  apply confirm_success in H.
  destruct H as (s & d0 & tm & f & _ & _ & Hdate & Htime & Hv & Hadd & _).
  rewrite Hd, parse_strftime_date in Hdate by assumption.
  rewrite Ht, parse_strftime_time in Htime by assumption.
  injection Hdate as <-. injection Htime as <-.
  apply validate_form_fields in Hv. destruct Hv as (Hfd & Hft & _).
  injection Hfd as Hfd.
  destruct (db_add_row db f) as (row & Hrow & Rid & _ & Rdate & Rtime & _).
  rewrite Hrow in Hadd. injection Hadd as -> ->.
  unfold get_all_logs. rewrite map_app. cbn [map]. eexists. split; [reflexivity|].
  cbn. rewrite Rid, Rdate, Rtime, <- Hfd, Hft. repeat split.
Qed.

Lemma confirmed_draft_is_listed_as_submitted_witness :
  exists entry,
    get_all_logs
      [ InteractionLogDB.mk 1 "Dr. Lee" (mkDate 2024 6 1) (Some (mkTime 10 30 0 0))
          "Meeting" [] "Drug X efficacy" [] [] None EmptyString EmptyString ]
    = get_all_logs [] ++ [entry]
    /\ HCPLogResponse.id entry = 1
    /\ HCPLogResponse.interactionDate entry = strftime_date (mkDate 2024 6 1)
    /\ HCPLogResponse.interactionTime entry = Some (strftime_time (mkTime 10 30 0 0)).
Proof.
  apply (confirmed_draft_is_listed_as_submitted Examples.errors Scenarios.listed_draft
           [] _ (LogConfirmation.mk "Log confirmed and saved successfully!" 1)
           (mkDate 2024 6 1) (mkTime 10 30 0 0));
    first [reflexivity | cbn; lia].
Defined.

(** A draft that passes every stage is stored. *)
Lemma confirm_from_stages (errors : args -> string) (draft_data : args)
    (db : list InteractionLogDB.t) (s : string) (d : date)
    (interaction_time_obj : option time) (f : HCPInteractionForm.t) :
  stripped_sentiment draft_data = Response s ->
  sentiment_allowed (normalize_sentiment s) = true ->
  parse_interaction_date (dict_get "interactionDate" draft_data) = Response (Some d) ->
  parse_interaction_time (dict_get "interactionTime" draft_data)
  = Response interaction_time_obj ->
  validate_form draft_data (Some d) interaction_time_obj (normalize_sentiment s)
  = Some f ->
  confirm_chat_interaction_log errors draft_data db
  = (Response (LogConfirmation.mk "Log confirmed and saved successfully!"
                 (snd (db_add db f))),
     fst (db_add db f)).
Proof.
  intros Hs Ha Hd Ht Hv. unfold confirm_chat_interaction_log, check_sentiment.
  rewrite Hs. cbn [http_bind]. rewrite Ha. cbn [http_bind].
  rewrite Hd. cbn [http_bind]. rewrite Ht. cbn [http_bind]. rewrite Hv.
  destruct (db_add db f). reflexivity.
Qed.

(** X22.  A confirmation does not look at what the table holds: when a
    draft has been stored, confirming the same draft again succeeds again and
    stores a second row, equal to the first but for its identifier, the next
    one. *)
Theorem retried_confirmation_stores_a_second_row :
  forall (errors : args -> string) (draft_data : args)
         (db db' : list InteractionLogDB.t) (confirmation : LogConfirmation.t),
    confirm_chat_interaction_log errors draft_data db = (Response confirmation, db') ->
    exists row,
      db' = db ++ [row]
      /\ confirm_chat_interaction_log errors draft_data db'
         = (Response (LogConfirmation.mk "Log confirmed and saved successfully!"
                        (S (LogConfirmation.log_id confirmation))),
            db ++ [row; with_id (S (LogConfirmation.log_id confirmation)) row]).
Proof.
  intros errors draft_data db db' confirmation H.
  apply confirm_success in H.
  destruct H as (s & d & tm & f & Hs & Ha & Hd & Ht & Hv & Hadd & _).
  rewrite (confirm_from_stages errors draft_data db' s d tm f Hs Ha Hd Ht Hv).
  unfold db_add in *. injection Hadd as -> ->. eexists. split; [reflexivity|].
  cbn [fst snd]. rewrite length_app. cbn [length].
  rewrite Nat.add_1_r, <- app_assoc. reflexivity.
Qed.

Lemma retried_confirmation_stores_a_second_row_witness :
  exists row,
    [ InteractionLogDB.mk 1 "Dr. Lee" (mkDate 2024 6 1) (Some (mkTime 10 30 0 0))
        "Meeting" [] "Drug X efficacy" [] [] (Some "Positive")
        EmptyString EmptyString ] = [] ++ [row]
    /\ confirm_chat_interaction_log Examples.errors Examples.padded_draft
         [ InteractionLogDB.mk 1 "Dr. Lee" (mkDate 2024 6 1) (Some (mkTime 10 30 0 0))
             "Meeting" [] "Drug X efficacy" [] [] (Some "Positive")
             EmptyString EmptyString ]
       = (Response (LogConfirmation.mk "Log confirmed and saved successfully!" 2),
          [] ++ [row; with_id 2 row]).
Proof.
  apply (retried_confirmation_stores_a_second_row Examples.errors Examples.padded_draft
           [] _ (LogConfirmation.mk "Log confirmed and saved successfully!" 1)).
  reflexivity.
Defined.

(** ** The form endpoint *)

(** X23.  The form endpoint refuses a form only when both the name and
    the topics are empty, with a 400 that leaves the table as it was.  Any
    other form is stored as one new row under the next identifier, the
    response names the interaction's name and its date as YYYY-MM-DD, and the
    listing of the new table is the old listing followed by the entry of the
    form, its date shown as DD-MM-YYYY and its sentiment as the form gave
    it; in both texts a year below 1000 is shown without leading zeros. *)
Theorem form_is_stored_and_listed :
  forall (interaction_data : HCPInteractionForm.t) (db : list InteractionLogDB.t),
    (HCPInteractionForm.hcpName interaction_data = EmptyString ->
     HCPInteractionForm.topicsDiscussed interaction_data = EmptyString ->
     log_interaction_form interaction_data db
     = (HTTPException 400 "Either HCP Name or Topics Discussed must be provided.", db))
    /\ (HCPInteractionForm.hcpName interaction_data <> EmptyString
        \/ HCPInteractionForm.topicsDiscussed interaction_data <> EmptyString ->
        exists db',
          log_interaction_form interaction_data db
          = (Response
               (LogConfirmation.mk
                  ("Interaction with " ++ HCPInteractionForm.hcpName interaction_data
                   ++ " on "
                   ++ strftime_iso (HCPInteractionForm.interactionDate interaction_data)
                   ++ " logged successfully via form.")%string
                  (S (length db))),
             db')
          /\ length db' = S (length db)
          /\ get_all_logs db'
             = get_all_logs db
               ++ [HCPLogResponse.mk (S (length db))
                     (HCPInteractionForm.hcpName interaction_data)
                     (strftime_date (HCPInteractionForm.interactionDate interaction_data))
                     (option_map strftime_time
                        (HCPInteractionForm.interactionTime interaction_data))
                     (HCPInteractionForm.hcpSentiment interaction_data)]).
Proof.
  intros interaction_data db. unfold log_interaction_form. split.
  - intros -> ->. reflexivity.
  - intros H.
    assert (E : negb (truthy (HCPInteractionForm.hcpName interaction_data))
                && negb (truthy (HCPInteractionForm.topicsDiscussed interaction_data))
                = false).
    { destruct (HCPInteractionForm.hcpName interaction_data);
        destruct (HCPInteractionForm.topicsDiscussed interaction_data);
        try reflexivity.
      destruct H; congruence. }
    rewrite E. unfold db_add. eexists. split; [reflexivity|]. split.
    + rewrite length_app. cbn. lia.
    + unfold get_all_logs. rewrite map_app. reflexivity.
Qed.

Lemma form_is_stored_and_listed_witness :
  exists db',
    log_interaction_form Scenarios.dr_lee_form []
    = (Response
         (LogConfirmation.mk
            "Interaction with Dr. Lee on 2024-06-01 logged successfully via form." 1),
       db')
    /\ length db' = 1
    /\ get_all_logs db'
       = get_all_logs []
         ++ [HCPLogResponse.mk 1 "Dr. Lee" "01-06-2024" (Some "10:30")
               (Some EmptyString)].
Proof.
  apply (proj2 (form_is_stored_and_listed Scenarios.dr_lee_form [])).
  left. discriminate.
Defined.

(** A form dated before the year 1000 is answered and listed with its year
    on three digits. *)
Lemma early_form_is_shown_unpadded :
  exists db',
    log_interaction_form Scenarios.early_form []
    = (Response
         (LogConfirmation.mk
            "Interaction with Dr. Lee on 999-12-03 logged successfully via form." 1),
       db')
    /\ get_all_logs db' = [HCPLogResponse.mk 1 "Dr. Lee" "03-12-999" None None].
Proof.
  eexists. split; reflexivity.
Qed.

(** ** More on tool outputs *)

Lemma prefix_split (w s : string) :
  prefix w s = true -> exists post, s = (w ++ post)%string.
Proof.
  revert s. induction w as [|a w IH]; intros s H.
  - exists s. reflexivity.
  - destruct s as [|b s]; [discriminate|]. cbn [prefix] in H.
    destruct (ascii_dec a b) as [->|]; [|discriminate].
    destruct (IH s H) as [post ->]. exists post. reflexivity.
Qed.

Lemma str_in_split (w s : string) :
  str_in w s = true -> exists pre post, s = (pre ++ w ++ post)%string.
Proof.
  induction s as [|c s IH]; cbn [str_in]; intros H.
  - rewrite orb_false_r in H. apply prefix_split in H. destruct H as [post H].
    exists EmptyString, post. exact H.
  - apply orb_prop in H. destruct H as [H|H].
    + apply prefix_split in H. destruct H as [post H].
      exists EmptyString, post. exact H.
    + destruct (IH H) as (pre & post & ->). exists (String c pre), post. reflexivity.
Qed.

(** An occurrence in a part is an occurrence in the whole. *)
Lemma str_in_part (w a s b : string) :
  str_in w s = true -> str_in w (a ++ s ++ b)%string = true.
Proof.
  intros H. apply str_in_split in H. destruct H as (pre & post & ->).
  apply (str_in_built (a ++ pre) w (post ++ b)).
  rewrite !string_app_assoc. reflexivity.
Qed.

Lemma question_marker_part (a s b : string) :
  question_marker s = true -> question_marker (a ++ s ++ b)%string = true.
Proof.
  unfold question_marker. rewrite !lower_app. intros H.
  apply orb_prop in H. destruct H as [H|H].
  - rewrite (str_in_part "question" _ _ _ H). reflexivity.
  - rewrite (str_in_part "clarify" _ _ _ H). apply orb_true_r.
Qed.

Lemma question_marker_nonempty (s : string) :
  question_marker s = true -> s <> EmptyString.
Proof.
  intros H ->. discriminate.
Qed.

Lemma render_question_in_topics (v1 v2 v3 v4 v5 v6 v7 v8 v9 v10 v11 : string) :
  question_marker v6 = true ->
  question_marker (render [v1; v2; v3; v4; v5; v6; v7; v8; v9; v10; v11]) = true.
Proof.
  intros H. unfold render, labels. cbn [combine map join fst snd].
  set (rest := (nl ++ ("**Materials Shared:**" ++ " " ++ v7) ++ nl
                ++ ("**Samples Distributed:**" ++ " " ++ v8) ++ nl
                ++ ("**Sentiment:**" ++ " " ++ v9) ++ nl
                ++ ("**Outcomes:**" ++ " " ++ v10) ++ nl
                ++ "**Follow-up:**" ++ " " ++ v11)%string).
  replace ((("**HCP:**" ++ " " ++ v1) ++ nl ++ ("**Date:**" ++ " " ++ v2) ++ nl
            ++ ("**Time:**" ++ " " ++ v3) ++ nl ++ ("**Type:**" ++ " " ++ v4) ++ nl
            ++ ("**Attendees:**" ++ " " ++ v5) ++ nl
            ++ ("**Topics:**" ++ " " ++ v6) ++ rest)%string)
    with ((("**HCP:**" ++ " " ++ v1) ++ nl ++ ("**Date:**" ++ " " ++ v2) ++ nl
           ++ ("**Time:**" ++ " " ++ v3) ++ nl ++ ("**Type:**" ++ " " ++ v4) ++ nl
           ++ ("**Attendees:**" ++ " " ++ v5) ++ nl ++ "**Topics:**" ++ " ")
          ++ v6 ++ rest)%string
    by (rewrite !string_app_assoc; reflexivity).
  apply question_marker_part, H.
Qed.

(** X5.  A draft does not always end the turn: when the topics
    handed to the drafting tool hold "question" or "clarify" (in any case),
    so does the draft, and after the tool node the graph goes back to the
    language model instead of ending with the draft. *)
Theorem draft_with_a_question_goes_back_to_the_model :
  forall (validation_error : string -> args -> string)
         (llm : nat -> list BaseMessage -> outcome (string * list ToolCall))
         (front : list BaseMessage) (content : string) (tool_calls : list ToolCall)
         (tool_call : ToolCall) (trace : llm_trace) (topics : string),
    tool_name tool_call = "log_interaction_tool" ->
    well_typed (tool_args tool_call) = true ->
    dict_get "topicsDiscussed" (tool_args tool_call) = Some (VStr topics) ->
    question_marker topics = true ->
    question_marker (expected_draft (tool_args tool_call)) = true
    /\ exists state',
        step validation_error llm Node_tools
          {| messages := front ++ [AIMessage content (tool_calls ++ [tool_call])] |}
          trace
        = (Return (Node_llm, state'), trace)
        /\ last_item (messages state')
           = Return (ToolMessage (expected_draft (tool_args tool_call))
                       (tool_call_id tool_call)).
Proof.
  intros validation_error llm front content tool_calls tool_call trace topics
         Hn Ht Hget Hq.
  assert (Hdraft : question_marker (expected_draft (tool_args tool_call)) = true).
  { unfold expected_draft, filled. apply render_question_in_topics.
    unfold text_arg. rewrite Hget.
    pose proof (question_marker_nonempty topics Hq) as Hne.
    destruct topics as [|c topics]; [congruence|]. exact Hq. }
  split; [exact Hdraft|].
  pose proof (log_tool_output validation_error tool_call Hn Ht) as Hout.
  eexists. split.
  - rewrite (step_tools_node validation_error llm front content tool_calls tool_call).
    rewrite Hout, Hdraft. reflexivity.
  - cbn [messages]. rewrite map_app. cbn [map]. rewrite app_assoc.
    unfold tool_output at 2. rewrite Hout. apply last_item_app.
Qed.

Lemma draft_with_a_question_goes_back_to_the_model_witness :
  question_marker (expected_draft (tool_args Scenarios.questioning_call)) = true
  /\ exists state',
      step Examples.validation_error Examples.greeting_llm Node_tools
        {| messages := [] ++ [AIMessage EmptyString ([] ++ [Scenarios.questioning_call])] |}
        []
      = (Return (Node_llm, state'), [])
      /\ last_item (messages state')
         = Return (ToolMessage (expected_draft (tool_args Scenarios.questioning_call))
                     (tool_call_id Scenarios.questioning_call)).
Proof.
  apply (draft_with_a_question_goes_back_to_the_model Examples.validation_error
           Examples.greeting_llm [] EmptyString [] Scenarios.questioning_call []
           "Open question on dosing");
    reflexivity.
Defined.

(** X10.  A tool invoked with arguments its signature refuses does
    not abort the turn: for the drafting tool on a dict that is not well
    typed, and for the clarifying-question tool on a dict without a text
    under "question", the content of the tool message is "Error executing
    tool <name>: " followed by the text of the wrapper's exception. *)
Theorem refused_arguments_become_an_error_text :
  forall (validation_error : string -> args -> string) (tool_call : ToolCall),
    (tool_name tool_call = "log_interaction_tool" ->
     well_typed (tool_args tool_call) = false ->
     tool_output_content validation_error tool_call
     = ("Error executing tool log_interaction_tool: "
        ++ validation_error "log_interaction_tool" (tool_args tool_call))%string)
    /\ (tool_name tool_call = "ask_clarifying_question_tool" ->
        is_str (dict_get "question" (tool_args tool_call)) = false ->
        tool_output_content validation_error tool_call
        = ("Error executing tool ask_clarifying_question_tool: "
           ++ validation_error "ask_clarifying_question_tool" (tool_args tool_call))%string).
Proof.
  intros validation_error tool_call. split; intros Hn Ht; unfold tool_output_content;
    rewrite Hn.
  - change ("log_interaction_tool" =? "log_interaction_tool")%string with true.
    cbv iota zeta. rewrite invoke_log_interaction_tool_template, Ht. reflexivity.
  - change ("ask_clarifying_question_tool" =? "log_interaction_tool")%string with false.
    change ("ask_clarifying_question_tool" =? "ask_clarifying_question_tool")%string
      with true.
    cbv iota zeta. unfold invoke_ask_clarifying_question_tool.
    rewrite required_str_typed, Ht. reflexivity.
Qed.

Lemma refused_arguments_become_an_error_text_witness :
  tool_output_content Examples.validation_error Scenarios.dateless_call
  = "Error executing tool log_interaction_tool: 1 validation error for log_interaction_tool".
Proof.
  apply (proj1 (refused_arguments_become_an_error_text Examples.validation_error
                  Scenarios.dateless_call));
    reflexivity.
Defined.

Lemma length_append (a b : string) :
  String.length (a ++ b)%string = String.length a + String.length b.
Proof.
  induction a as [|c a IH]; cbn; [reflexivity | rewrite IH; reflexivity].
Qed.

Lemma length_take (n : nat) (s : string) :
  String.length (take n s) = Nat.min n (String.length s).
Proof.
  revert s. induction n as [|n IH]; intros [|c s]; cbn; try reflexivity.
  rewrite IH. reflexivity.
Qed.

(** X8.  The summary keeps at most the first hundred
    characters of the text: its length is 46 plus the smaller of 100 and the
    length of the text, so never more than 146 characters however long the
    text is. *)
Theorem summary_length_is_bounded :
  forall text : string,
    String.length (summarize_interaction_tool text)
    = 46 + Nat.min 100 (String.length text)
    /\ String.length (summarize_interaction_tool text) <= 146.
Proof.
  intros text. unfold summarize_interaction_tool.
  rewrite !length_append, length_take.
  change (String.length "Summary of provided text: '") with 27.
  change (String.length "...' (mock summary)") with 19. lia.
Qed.
